(** * c1tools: the project scaffolder of [c1tools/proj/__init__.py]

    A shallow embedding of the [proj] component: the numbering of project
    directories, the harvest of recent downloads, the generation of Markdown
    stubs and the [rendu] conversion loop.

    Conventions of the model.
    - A [str] is a [string]; each [ascii] stands for one Unicode code point
      below 256, so [e_acute] is the single character U+00E9.
    - A Python [int] is a [Z].
    - A raised exception is the [Raise] case of [result]; the exception class
      is kept.
    - A directory is the list of its entries in the order in which the
      operating system enumerates them ([iterdir], [glob]); names are unique
      in a well-formed directory ([wf_dir]).
    - [st_mtime] and [time()] are Python floats.  [Float64] has them as
      binary64 values, with the conversion of the seconds and the rounding
      of the subtraction of [get_latest_downloads], and with a [stat] that
      can fail.  The definitions outside [Float64] keep exact rational
      values in [Q]; they serve where nothing depends on the rounding: the
      choice of the folder, the order of the sort, the candidates as a list
      of distinct entries, the run as a whole.
    - [Tree] has the file system as one tree, in which the download folder
      and the project directory are two places that may lie one inside the
      other.  [harvest] and [world] outside [Tree] keep the home directory
      (with the download folder) and the working directory as two separate
      directories: there neither lies inside the other.
    - The nodes of a tree are regular files and directories; a symbolic link
      shows only in a [stat] that fails.
    - The limits of the platform are outside the model: the length of a name
      (255 bytes) and of a path, the digits of an [int] that [int()] and the
      formatting accept (4300), permissions and space. *)

From Stdlib Require Import String Ascii List Bool ZArith QArith Lia.
From Stdlib Require Import Permutation Sorted DecimalString SpecFloat Qpower.
From Stdlib Require Import DecimalPos DecimalN.
Import ListNotations.

Open Scope string_scope.
Open Scope Z_scope.

(* ------------------------------------------------------------------ *)
(** ** Exceptions *)

Inductive exn : Type :=
| ValueError
| FileExistsError
| FileNotFoundError
| IsADirectoryError
| CalledProcessError
| ShutilError
| OverflowError
| RecursionError.

Inductive result (A : Type) : Type :=
| Ok (a : A)
| Raise (e : exn).

Arguments Ok {A} a.
Arguments Raise {A} e.

Definition bind {A B : Type} (c : result A) (k : A -> result B) : result B :=
  match c with
  | Ok a => k a
  | Raise e => Raise e
  end.

Notation "x <- c ;; k" := (bind c (fun x => k))
  (at level 61, c at next level, right associativity).

(* ------------------------------------------------------------------ *)
(** ** The Python builtins the component uses *)

(** [s.startswith(p)]. *)
Definition startswith (s p : string) : bool := String.prefix p s.

(** [s.endswith(p)]. *)
Definition endswith (s p : string) : bool :=
  (String.length p <=? String.length s)%nat &&
  String.eqb (substring (String.length s - String.length p) (String.length p) s) p.

(** [s[n:]]: the empty string when [s] has at most [n] characters. *)
Fixpoint slice_from (n : nat) (s : string) : string :=
  match n, s with
  | O, _ => s
  | S _, EmptyString => EmptyString
  | S m, String _ r => slice_from m r
  end.

(** [s[:n]]. *)
Fixpoint slice_to (n : nat) (s : string) : string :=
  match n, s with
  | O, _ => EmptyString
  | S _, EmptyString => EmptyString
  | S m, String c r => String c (slice_to m r)
  end.

(** The ASCII decimal digits, U+0030 to U+0039. *)
Definition is_decimal_char (c : ascii) : bool :=
  let n := nat_of_ascii c in ((48 <=? n) && (n <=? 57))%nat.

(** Characters with the Unicode digit property below U+0100: the decimal
    digits and the superscripts U+00B2, U+00B3 and U+00B9. *)
Definition is_digit_char (c : ascii) : bool :=
  let n := nat_of_ascii c in
  (is_decimal_char c || (n =? 178) || (n =? 179) || (n =? 185))%nat.

Fixpoint all_chars (p : ascii -> bool) (s : string) : bool :=
  match s with
  | EmptyString => true
  | String c r => p c && all_chars p r
  end.

(** [s.isdigit()]: false on the empty string. *)
Definition isdigit (s : string) : bool :=
  match s with
  | EmptyString => false
  | _ => all_chars is_digit_char s
  end.

Fixpoint decimal_value (acc : Z) (s : string) : Z :=
  match s with
  | EmptyString => acc
  | String c r => decimal_value (10 * acc + (Z.of_nat (nat_of_ascii c) - 48)) r
  end.

(** [int(s)] on the strings that reach it here, those that pass [isdigit]:
    the decimal value when every character is a decimal digit, [ValueError]
    otherwise (a superscript digit is a digit and not a decimal). *)
Definition py_int (s : string) : result Z :=
  match s with
  | EmptyString => Raise ValueError
  | _ => if all_chars is_decimal_char s then Ok (decimal_value 0 s)
         else Raise ValueError
  end.

(** [max(l)]: [ValueError] on the empty list. *)
Definition py_max (l : list Z) : result Z :=
  match l with
  | [] => Raise ValueError
  | x :: r => Ok (fold_left Z.max r x)
  end.

Definition decimal_digits (z : Z) : string :=
  NilZero.string_of_uint (N.to_uint (Z.to_N z)).

(** [f"{z:02d}"]: the decimal digits, padded with zeros on the left to two
    characters; the sign of a negative number counts in the width. *)
Definition format_02d (z : Z) : string :=
  if z <? 0 then "-" ++ decimal_digits (- z)
  else if z <? 10 then "0" ++ decimal_digits z
  else decimal_digits z.

(* ------------------------------------------------------------------ *)
(** ** The file system *)

#[local] Set Warnings "-register-all".

Inductive node : Type :=
| File (content : string)
| Dir (children : list (string * node)).

Definition directory : Type := list (string * node).

Definition is_dir (x : node) : bool :=
  match x with Dir _ => true | File _ => false end.

Definition names (d : directory) : list string := map fst d.

Definition wf_dir (d : directory) : Prop := NoDup (names d).

Fixpoint lookup (n : string) (d : directory) : option node :=
  match d with
  | [] => None
  | (m, x) :: r => if String.eqb n m then Some x else lookup n r
  end.

(** [path.exists()]. *)
Definition exists_ (n : string) (d : directory) : bool :=
  match lookup n d with Some _ => true | None => false end.

(** The entry [n] taken out of the directory. *)
Fixpoint delete (n : string) (d : directory) : directory :=
  match d with
  | [] => []
  | (m, x) :: r => if String.eqb n m then delete n r else (m, x) :: delete n r
  end.

(** The entry [n] set to [x]: replaced where it stands, added otherwise. *)
Fixpoint put (n : string) (x : node) (d : directory) : directory :=
  match d with
  | [] => [(n, x)]
  | (m, y) :: r => if String.eqb n m then (m, x) :: r else (m, y) :: put n x r
  end.

(* ------------------------------------------------------------------ *)
(** ** [generic_project]: the next project number (lines 108-118) *)

(** [[d for d in WORKDIR.iterdir()
       if d.is_dir() and d.name.startswith(project_type)]], by name. *)
Definition existing_project_type_dirs
    (project_type : string) (workdir : directory) : list string :=
  names (filter (fun e => is_dir (snd e) && startswith (fst e) project_type)
                workdir).

(** [[int(d.name[2:]) for d in ... if d.name[2:].isdigit()]]: the slice
    starts at the constant 2. *)
Fixpoint existing_project_type_numbers (ds : list string) : result (list Z) :=
  match ds with
  | [] => Ok []
  | n :: r =>
      if isdigit (slice_from 2 n) then
        v <- py_int (slice_from 2 n) ;;
        vs <- existing_project_type_numbers r ;;
        Ok (v :: vs)
      else existing_project_type_numbers r
  end.

Definition next_project_type_number
    (project_type : string) (workdir : directory) : result Z :=
  match existing_project_type_dirs project_type workdir with
  | [] => Ok 1
  | ds =>
      ns <- existing_project_type_numbers ds ;;
      m <- py_max ns ;;
      Ok (m + 1)
  end.

Definition project_dir_name (project_type : string) (n : Z) : string :=
  project_type ++ format_02d n.

(** [path.mkdir(exist_ok=True)] for an entry of directory [d]. *)
Definition mkdir_exist_ok (n : string) (d : directory) : result directory :=
  match lookup n d with
  | None => Ok (put n (Dir []) d)
  | Some (Dir _) => Ok d
  | Some (File _) => Raise FileExistsError
  end.

(** *** The numbering as the specification words it

    The numeric suffix is what follows the prefix, that is the characters
    after the first [len(project_type)]; entries whose suffix is not purely
    numeric are ignored; the next number is the greatest suffix plus one, or
    1 when there is none. *)

Definition purely_numeric (s : string) : bool :=
  match s with
  | EmptyString => false
  | _ => all_chars is_decimal_char s
  end.

Fixpoint spec_numeric_suffixes (project_type : string) (ds : list string)
    : list Z :=
  match ds with
  | [] => []
  | n :: r =>
      let s := slice_from (String.length project_type) n in
      if purely_numeric s
      then decimal_value 0 s :: spec_numeric_suffixes project_type r
      else spec_numeric_suffixes project_type r
  end.

Definition spec_next_number (project_type : string) (workdir : directory) : Z :=
  match spec_numeric_suffixes project_type
          (existing_project_type_dirs project_type workdir) with
  | [] => 1
  | x :: r => fold_left Z.max r x + 1
  end.

(* ------------------------------------------------------------------ *)
(** ** Paths: [Path.suffix], [Path.stem], [Path.with_suffix], [Path.glob] *)

(** A string that is one component of a path: it has no [/] and no NUL. *)
Definition is_component (s : string) : bool :=
  all_chars (fun c => negb (Ascii.eqb c "/") && negb (Ascii.eqb c "000")) s.

(** [s.rfind(".")], [None] for -1. *)
Fixpoint rfind_dot (s : string) : option nat :=
  match s with
  | EmptyString => None
  | String c r =>
      match rfind_dot r with
      | Some i => Some (S i)
      | None => if Ascii.eqb c "." then Some O else None
      end
  end.

(** [Path.suffix]: from the last dot on, unless that dot opens or closes the
    name. *)
Definition suffix (name : string) : string :=
  match rfind_dot name with
  | Some i =>
      if ((0 <? i) && (i <? String.length name - 1))%nat
      then slice_from i name else ""
  | None => ""
  end.

(** [Path.stem]: the name without its suffix. *)
Definition stem (name : string) : string :=
  slice_to (String.length name - String.length (suffix name)) name.

(** [Path.with_suffix(new)]. *)
Definition with_suffix (name new : string) : string := stem name ++ new.

(** [list(dir.glob("*" + tail))], by name: the entries, hidden ones too,
    whose name ends with [tail]. *)
Definition glob_ending (tail : string) (d : directory) : list string :=
  filter (fun n => endswith n tail) (names d).

(** The entries of the sub-directory [p] of [parent]; nothing when [p] is
    missing or is a file, as [Path.glob] yields nothing there. *)
Definition children (p : string) (parent : directory) : directory :=
  match lookup p parent with
  | Some (Dir ch) => ch
  | _ => []
  end.

(* ------------------------------------------------------------------ *)
(** ** [download_dir] and [get_latest_downloads] (lines 36-47) *)

Definition e_acute : string := String "233" EmptyString.

Definition telechargements : string :=
  "T" ++ e_acute ++ "l" ++ e_acute ++ "chargements".

Definition download_dir (home : directory) : string :=
  if exists_ telechargements home then telechargements else "Downloads".

Section Downloads.

(** [f.stat().st_mtime] of the entry [f] of the download folder, as the
    rational number that the float stands for. *)
Variable st_mtime : string -> Q.

(** The reading of the [i]-th call of [time()], counted from 0: the
    comprehension calls it once for each entry. *)
Variable time : nat -> Q.

Definition recent (i : nat) (max_age_in_minutes : Z) (f : string) : bool :=
  Qle_bool (time i - inject_Z (max_age_in_minutes * 60)) (st_mtime f).

Fixpoint filtered_files (i : nat) (max_age_in_minutes : Z)
    (all_files : list string) : list string :=
  match all_files with
  | [] => []
  | f :: r =>
      if recent i max_age_in_minutes f
      then f :: filtered_files (S i) max_age_in_minutes r
      else filtered_files (S i) max_age_in_minutes r
  end.

(** [sorted(l, key=st_mtime, reverse=True)]: the sort is stable, entries
    of equal key keep their order; so does this insertion. *)
Fixpoint insert_reverse (f : string) (l : list string) : list string :=
  match l with
  | [] => [f]
  | g :: r =>
      if Qle_bool (st_mtime g) (st_mtime f) then f :: g :: r
      else g :: insert_reverse f r
  end.

Definition sorted_reverse (l : list string) : list string :=
  fold_right insert_reverse [] l.

(** Most recent first: the order of the result. *)
Definition newer_first (f g : string) : Prop := (st_mtime g <= st_mtime f)%Q.

Definition get_latest_downloads (home : directory) (max_age_in_minutes : Z)
    : list string :=
  let all_files := names (children (download_dir home) home) in
  sorted_reverse (filtered_files 0 max_age_in_minutes all_files).

End Downloads.

(* ------------------------------------------------------------------ *)
(** ** [get_latest_downloads] on binary64 floats (lines 42-47)

    [f.stat().st_mtime] and [time()] are binary64 floats and the limit
    [time() - max_age_in_minutes * 60] is computed on them: the [int] of the
    seconds is converted, which raises [OverflowError] beyond the range of
    the floats, and the difference is rounded to the nearest float.
    [Path.stat] follows symbolic links and raises for an entry that it cannot
    reach, a dangling link say. *)

Module Float64.

Definition prec : Z := 53.
Definition emax : Z := 1024.

(** The float nearest to an integer, ties to even; an infinity beyond the
    range. *)
Definition of_int (z : Z) : spec_float := binary_normalize prec emax z 0 false.

(** The conversion of the [int] operand of a float operation. *)
Definition float_of_int (z : Z) : result spec_float :=
  match of_int z with
  | S754_infinity _ => Raise OverflowError
  | x => Ok x
  end.

(** [x - y] on floats. *)
Definition sub (x y : spec_float) : spec_float := SFsub prec emax x y.

(** The number that a finite float stands for. *)
Definition value (x : spec_float) : Q :=
  match x with
  | S754_finite s m e =>
      ((if s then -1 else 1) * inject_Z (Zpos m) * 2 ^ e)%Q
  | _ => 0%Q
  end.

(** The place of a float that is no NaN in the order of the floats: floats
    compare as these triples do, from left to right. *)
Definition rank (x : spec_float) : Z * Z * Z :=
  match x with
  | S754_infinity true => (-2, 0, 0)
  | S754_finite true m e => (-1, - e, Zneg m)
  | S754_zero _ => (0, 0, 0)
  | S754_nan => (0, 0, 0)
  | S754_finite false m e => (1, e, Zpos m)
  | S754_infinity false => (2, 0, 0)
  end.

Definition rank_le (a b : Z * Z * Z) : Prop :=
  fst (fst a) < fst (fst b) \/
  fst (fst a) = fst (fst b) /\
  (snd (fst a) < snd (fst b) \/
   snd (fst a) = snd (fst b) /\ snd a <= snd b).

Section Downloads.

(** [f.stat().st_mtime] of the entry [f] of the download folder. *)
Variable stat_mtime : string -> result spec_float.

(** The reading of the [i]-th call of [time()], counted from 0. *)
Variable time : nat -> spec_float.

(** [f.stat().st_mtime >= (time() - max_age_in_minutes * 60)], the operands
    in the order of their evaluation. *)
Definition recent (i : nat) (max_age_in_minutes : Z) (f : string)
    : result bool :=
  m <- stat_mtime f ;;
  a <- float_of_int (max_age_in_minutes * 60) ;;
  Ok (SFleb (sub (time i) a) m).

Fixpoint filtered_files (i : nat) (max_age_in_minutes : Z)
    (all_files : list string) : result (list string) :=
  match all_files with
  | [] => Ok []
  | f :: r =>
      b <- recent i max_age_in_minutes f ;;
      rest <- filtered_files (S i) max_age_in_minutes r ;;
      Ok (if b then f :: rest else rest)
  end.

(** The keys of [sorted]: [key] is called once on each element, in order. *)
Fixpoint keys (l : list string) : result (list (spec_float * string)) :=
  match l with
  | [] => Ok []
  | f :: r =>
      m <- stat_mtime f ;;
      ks <- keys r ;;
      Ok ((m, f) :: ks)
  end.

(** [sorted(l, key=..., reverse=True)] on keys that are numbers: the stable
    sort, greatest key first. *)
Fixpoint insert_reverse (x : spec_float * string)
    (l : list (spec_float * string)) : list (spec_float * string) :=
  match l with
  | [] => [x]
  | y :: r =>
      if SFleb (fst y) (fst x) then x :: y :: r
      else y :: insert_reverse x r
  end.

Definition sorted_reverse (l : list (spec_float * string))
    : list (spec_float * string) :=
  fold_right insert_reverse [] l.

Definition get_latest_downloads (home : directory) (max_age_in_minutes : Z)
    : result (list string) :=
  let all_files := names (children (download_dir home) home) in
  filtered <- filtered_files 0 max_age_in_minutes all_files ;;
  ks <- keys filtered ;;
  Ok (map snd (sorted_reverse ks)).

(** Every entry of the list can be examined by [stat], and its modification
    time is a number. *)
Definition stat_ok (l : list string) : Prop :=
  forall f, In f l -> exists m, stat_mtime f = Ok m /\ m <> S754_nan.

(** Most recent first: the order of the result. *)
Definition newer_first (f g : string) : Prop :=
  exists mf mg,
    stat_mtime f = Ok mf /\ stat_mtime g = Ok mg /\ SFleb mg mf = true.

End Downloads.

End Float64.

(* ------------------------------------------------------------------ *)
(** ** [generic_project]: the harvest of the downloads (lines 126-145)

    The loop on two directories of which neither lies inside the other;
    [Tree], below, has it on one tree, where [shutil.move] and
    [shutil.copytree] can fail. *)

(** [shutil.copy2] of a file and [shutil.copytree] of a directory, entry by
    entry. *)
Fixpoint copytree (x : node) : node :=
  match x with
  | File c => File c
  | Dir ch => Dir (map (fun e => let '(n, y) := e in (n, copytree y)) ch)
  end.

(** [shutil.move(src / f, dst / f)], called where [dst / f] does not exist:
    a rename. *)
Definition shutil_move (f : string) (src dst : directory)
    : result (directory * directory) :=
  match lookup f src with
  | None => Raise FileNotFoundError
  | Some x => Ok (delete f src, put f x dst)
  end.

(** The loop over [latest_downloads]; [dl] is the download folder and [proj]
    the new project directory. *)
Fixpoint harvest (move_instead_of_copy : bool) (latest_downloads : list string)
    (dl proj : directory) : result (directory * directory) :=
  match latest_downloads with
  | [] => Ok (dl, proj)
  | f :: r =>
      if exists_ f proj then harvest move_instead_of_copy r dl proj
      else if move_instead_of_copy then
        st <- shutil_move f dl proj ;;
        harvest move_instead_of_copy r (fst st) (snd st)
      else
        match lookup f dl with
        | Some (File c) =>            (* is_file(): shutil.copy2 *)
            harvest move_instead_of_copy r dl (put f (copytree (File c)) proj)
        | Some (Dir ch) =>            (* is_dir(): shutil.copytree *)
            harvest move_instead_of_copy r dl (put f (copytree (Dir ch)) proj)
        | None => harvest move_instead_of_copy r dl proj
        end
  end.

(* ------------------------------------------------------------------ *)
(** ** The harvest on one file system (lines 126-145)

    The download folder and the project directory are two places of one
    tree, given by their paths from its root: the project directory may lie
    inside the download folder, as it does when the command is started
    there. *)

Module Tree.

Definition path : Type := list string.

(** The node that a path leads to. *)
Fixpoint node_at (p : path) (x : node) : option node :=
  match p with
  | [] => Some x
  | n :: q =>
      match x with
      | Dir ch =>
          match lookup n ch with
          | Some y => node_at q y
          | None => None
          end
      | File _ => None
      end
  end.


(** The entries of the directory at [p] changed by [g]. *)
Fixpoint modify_at (p : path) (g : directory -> directory) (x : node) : node :=
  match p, x with
  | [], Dir ch => Dir (g ch)
  | n :: q, Dir ch =>
      match lookup n ch with
      | Some y => Dir (put n (modify_at q g y) ch)
      | None => x
      end
  | _, File _ => x
  end.

(** [p] leads to [q] or to a place above it. *)
Fixpoint is_prefix (p q : path) : bool :=
  match p, q with
  | [], _ => true
  | n :: p', m :: q' => String.eqb n m && is_prefix p' q'
  | _ :: _, [] => false
  end.

Definition same_path (p q : path) : bool := is_prefix p q && is_prefix q p.


(** A new entry [n] in the directory at [dir], which has to exist. *)
Definition put_at (dir : path) (n : string) (x : node) (root : node)
    : result node :=
  match node_at dir root with
  | Some (Dir _) => Ok (modify_at dir (put n x) root)
  | _ => Raise FileNotFoundError
  end.

(** [shutil.move(src_dir / f, dst_dir / f)], called where the destination
    does not exist: a rename, refused with [shutil.Error] for a directory
    whose destination lies inside it. *)
Definition shutil_move (src_dir : path) (f : string) (dst_dir : path)
    (root : node) : result node :=
  match node_at (src_dir ++ [f])%list root with
  | None => Raise FileNotFoundError
  | Some x =>
      if is_dir x && is_prefix (src_dir ++ [f])%list (dst_dir ++ [f])%list
      then Raise ShutilError
      else put_at dst_dir f x (modify_at src_dir (delete f) root)
  end.

(** [shutil.copytree(src_dir / f, dst_dir / f)] of the directory [x], called
    where the destination does not exist.  The entries of the source are
    listed before the destination is made, so a directory is copied into
    itself as it was.  When the destination lies deeper inside the source
    the copy descends into its own output without end: [RecursionError] is
    raised at the limit of the interpreter (or [shutil.Error], where the
    system refuses the length of the path before that; the model keeps the
    first). *)
Definition copytree_to (src_dir : path) (f : string) (dst_dir : path)
    (x : node) (root : node) : result node :=
  if is_prefix (src_dir ++ [f])%list dst_dir
     && negb (same_path (src_dir ++ [f])%list dst_dir)
  then Raise RecursionError
  else put_at dst_dir f (copytree x) root.

(** The loop over [latest_downloads]: [dl] is the path of the download
    folder and [proj] that of the new project directory. *)
Fixpoint harvest (move_instead_of_copy : bool) (latest_downloads : list string)
    (dl proj : path) (root : node) : result node :=
  match latest_downloads with
  | [] => Ok root
  | f :: r =>
      match node_at (proj ++ [f])%list root with
      | Some _ => harvest move_instead_of_copy r dl proj root
      | None =>
          if move_instead_of_copy then
            root' <- shutil_move dl f proj root ;;
            harvest move_instead_of_copy r dl proj root'
          else
            match node_at (dl ++ [f])%list root with
            | Some (File c) =>          (* is_file(): shutil.copy2 *)
                root' <- put_at proj f (copytree (File c)) root ;;
                harvest move_instead_of_copy r dl proj root'
            | Some (Dir ch) =>          (* is_dir(): shutil.copytree *)
                root' <- copytree_to dl f proj (Dir ch) root ;;
                harvest move_instead_of_copy r dl proj root'
            | None => harvest move_instead_of_copy r dl proj root
            end
      end
  end.

End Tree.

(* ------------------------------------------------------------------ *)
(** ** [_create_md_files_for_pdfs] (lines 153-189) *)

Definition dquote : string := String "034" EmptyString.
Definition newline : string := String "010" EmptyString.

(** [markdown_header.format(title=title)]; [today] is
    [datetime.date.today().isoformat()]. *)
Definition markdown_header (today title : string) : string :=
  "---" ++ newline ++
  "title: " ++ dquote ++ "Rendu " ++ title ++ dquote ++ newline ++
  "author: " ++ dquote ++ "Colin PROKOPOWICZ" ++ dquote ++ newline ++
  "date: " ++ dquote ++ today ++ dquote ++ newline ++
  "---" ++ newline ++
  newline ++
  "# " ++ title ++ newline ++
  newline.

(** [path.write_text(content)]: creates the file or replaces its content. *)
Definition write_text (n content : string) (d : directory) : result directory :=
  match lookup n d with
  | Some (Dir _) => Raise IsADirectoryError
  | _ => Ok (put n (File content) d)
  end.

Definition rendu_tail : string := "_rendu_Colin_PROKOPOWICZ".

Definition stub_name (pdf_file : string) : string :=
  stem pdf_file ++ rendu_tail ++ ".md".

Definition fallback_title (fallback_project_type_number : Z) : string :=
  "project" ++ format_02d fallback_project_type_number ++ rendu_tail.

(** The [for pdf_file in pdf_files] loop. *)
Fixpoint stubs_for_pdfs (today : string) (pdf_files : list string)
    (destination : directory) : result directory :=
  match pdf_files with
  | [] => Ok destination
  | pdf_file :: r =>
      if exists_ (stub_name pdf_file) destination
      then stubs_for_pdfs today r destination
      else
        d <- write_text (stub_name pdf_file)
               (markdown_header today (stem pdf_file)) destination ;;
        stubs_for_pdfs today r d
  end.

(** The first PDF of the list whose stub is named [m]. *)
Fixpoint first_pdf_for (m : string) (pdf_files : list string) : option string :=
  match pdf_files with
  | [] => None
  | p :: r => if String.eqb m (stub_name p) then Some p else first_pdf_for m r
  end.

Definition _create_md_files_for_pdfs (today : string)
    (fallback_project_type_number : Z) (destination : directory)
    : result directory :=
  match glob_ending ".pdf" destination with
  | [] =>
      let title := fallback_title fallback_project_type_number in
      write_text (title ++ ".md") (markdown_header today title) destination
  | pdf_files => stubs_for_pdfs today pdf_files destination
  end.

(* ------------------------------------------------------------------ *)
(** ** [generic_project] as a whole (lines 100-150), [td] and [tp] *)

(** The home directory, the working directory [WORKDIR] and the current
    directory of the process, as a path below [WORKDIR]. *)
Record world : Type := {
  home : directory;
  workdir : directory;
  cwd : list string
}.

Section Create.

Variable st_mtime : string -> Q.
Variable time : nat -> Q.

(** [datetime.date.today().isoformat()]. *)
Variable today : string.

Definition generic_project (project_type : string) (download_max_age : Z)
    (move_instead_of_copy : bool) (w : world) : result world :=
  n <- next_project_type_number project_type (workdir w) ;;
  let project_dir := project_dir_name project_type n in
  wd <- mkdir_exist_ok project_dir (workdir w) ;;
  let dl_name := download_dir (home w) in
  let latest_downloads :=
    get_latest_downloads st_mtime time (home w) download_max_age in
  st <- match latest_downloads with
        | [] => Ok (home w, children project_dir wd)
        | _ =>
            st <- harvest move_instead_of_copy latest_downloads
                    (children dl_name (home w)) (children project_dir wd) ;;
            Ok (put dl_name (Dir (fst st)) (home w), snd st)
        end ;;
  proj <- _create_md_files_for_pdfs today n (snd st) ;;
  Ok {| home := fst st;
        workdir := put project_dir (Dir proj) wd;
        cwd := [project_dir] |}.

Definition td (download_max_age : Z) : world -> result world :=
  generic_project "td" download_max_age true.


End Create.

(* ------------------------------------------------------------------ *)
(** ** [rendu] (lines 55-91) *)

(** [path.unlink()]. *)
Definition unlink (n : string) (d : directory) : result directory :=
  match lookup n d with
  | None => Raise FileNotFoundError
  | Some (Dir _) => Raise IsADirectoryError
  | Some (File _) => Ok (delete n d)
  end.

Section Rendu.

(** [str(WORKDIR)] and [str(TD_LATEX_HEADER)]. *)
Variable WORKDIR : string.
Variable TD_LATEX_HEADER : string.

(** [subprocess.run(args)], the external converter: the working directory
    it leaves, and its return code or the exception of a failed launch. *)
Variable subprocess_run : list string -> directory -> directory * result Z.

(** [subprocess.run(args, check=True)]. *)
Definition subprocess_run_check (args : list string) (d : directory)
    : directory * result unit :=
  let '(d', r) := subprocess_run args d in
  match r with
  | Ok returncode =>
      if returncode =? 0 then (d', Ok tt) else (d', Raise CalledProcessError)
  | Raise e => (d', Raise e)
  end.

Definition path_str (n : string) : string := WORKDIR ++ "/" ++ n.

Definition pandoc_args (pdf_file md_file : string) : list string :=
  ["pandoc"; "-s"; "-o"; path_str pdf_file; "--number-sections";
   "--include-in-header=" ++ TD_LATEX_HEADER; path_str md_file].

(** The [try] block of one file and the rest of the loop [k]: only
    [CalledProcessError] is caught. *)
Definition convert (pdf_file md_file : string)
    (k : directory -> directory * result unit) (d : directory)
    : directory * result unit :=
  let '(d', out) := subprocess_run_check (pandoc_args pdf_file md_file) d in
  match out with
  | Ok _ => k d'
  | Raise CalledProcessError => k d'
  | Raise e => (d', Raise e)
  end.

(** The [for md_file in md_files] loop: the working directory it leaves
    and the exception that ended it, if any. *)
Fixpoint rendu_loop (overwrite : bool) (md_files : list string)
    (d : directory) : directory * result unit :=
  match md_files with
  | [] => (d, Ok tt)
  | md_file :: r =>
      let pdf_file := with_suffix md_file ".pdf" in
      if exists_ pdf_file d then
        if overwrite then
          match unlink pdf_file d with
          | Ok d1 => convert pdf_file md_file (rendu_loop overwrite r) d1
          | Raise e => (d, Raise e)
          end
        else rendu_loop overwrite r d
      else convert pdf_file md_file (rendu_loop overwrite r) d
  end.

Definition rendu (overwrite : bool) (d : directory) : directory * result unit :=
  match glob_ending (rendu_tail ++ ".md") d with
  | [] => (d, Ok tt)
  | md_files => rendu_loop overwrite md_files d
  end.

End Rendu.

(* ------------------------------------------------------------------ *)
(** ** Sample states *)

Definition sample_home : directory :=
  [("Documents", Dir []);
   ("Downloads",
    Dir [("old.zip", File "PK");
         ("sujet.pdf", File "%PDF-1.7");
         ("data", Dir [("x.csv", File "1,2"); ("img", Dir [])])])].

(** [old.zip] is fifteen minutes old at the first reading of the clock, the
    other two entries a few seconds. *)
Definition sample_mtime (f : string) : Q :=
  if String.eqb f "old.zip" then 100
  else if String.eqb f "sujet.pdf" then 990
  else 995.

Definition sample_time (i : nat) : Q := 1000 + inject_Z (Z.of_nat i).

Definition sample_world : world :=
  {| home := sample_home;
     workdir := [("td01", Dir [("sujet.pdf", File "%PDF-td1")]);
                 ("cours.md", File "# cours")];
     cwd := [] |}.

(** A converter that fails on every file, with return code 43, and writes
    nothing. *)
Definition failing_pandoc (args : list string) (d : directory)
    : directory * result Z :=
  (d, Ok 43).

Definition sample_workdir : directory :=
  [("td01_rendu_Colin_PROKOPOWICZ.md", File "# td01");
   ("td01_rendu_Colin_PROKOPOWICZ.pdf", File "%PDF-old");
   ("td02_rendu_Colin_PROKOPOWICZ.md", File "# td02")].

(** The working directory that [td] leaves on [sample_world]. *)
Definition sample_world_after : world :=
  {| home := [("Documents", Dir []);
              ("Downloads", Dir [("old.zip", File "PK")])];
     workdir :=
       [("td01", Dir [("sujet.pdf", File "%PDF-td1")]);
        ("cours.md", File "# cours");
        ("td02",
         Dir [("data", Dir [("x.csv", File "1,2"); ("img", Dir [])]);
              ("sujet.pdf", File "%PDF-1.7");
              ("sujet_rendu_Colin_PROKOPOWICZ.md",
               File (markdown_header "2026-11-03" "sujet"))])];
     cwd := ["td02"] |}.

(** A home directory in which [Téléchargements] is a regular file. *)
Definition sample_home_fr : directory :=
  [(telechargements, File "not a folder");
   ("Downloads", Dir [("sujet.pdf", File "%PDF-1.7")])].

(** A working directory in which the one stub has its PDF. *)
Definition sample_rendered : directory :=
  [("td01_rendu_Colin_PROKOPOWICZ.md", File "# td01");
   ("td01_rendu_Colin_PROKOPOWICZ.pdf", File "%PDF-td01")].

(** The modification times and the clock of [sample_mtime] and of the first
    reading of [sample_time], as floats. *)
Definition sample_stat (f : string) : result spec_float :=
  Ok (if String.eqb f "old.zip" then Float64.of_int 100
      else if String.eqb f "sujet.pdf" then Float64.of_int 990
      else Float64.of_int 995).

Definition sample_clock (i : nat) : spec_float := Float64.of_int 1000.

(** One download whose modification time is the float nearest to -299.8,
    examined at a reading of the clock that is the float nearest to 0.2. *)
Definition rounding_home : directory :=
  [("Downloads", Dir [("f", File "PK")])].

Definition rounding_mtime : spec_float :=
  S754_finite true 5274137376115917 (-44).

Definition rounding_stat (f : string) : result spec_float :=
  Ok rounding_mtime.

Definition rounding_clock (i : nat) : spec_float :=
  S754_finite false 7205759403792794 (-55).

(** An entry that [stat] cannot reach. *)
Definition dangling_stat (f : string) : result spec_float :=
  Raise FileNotFoundError.

(** A download that was modified after the reading of the clock. *)
Definition future_stat (f : string) : result spec_float :=
  Ok (Float64.of_int 200).

Definition future_clock (i : nat) : spec_float := Float64.of_int 100.



Definition sample_dl : Tree.path := ["home"; "colin"; "Downloads"].
Definition sample_proj : Tree.path := ["home"; "colin"; "c1"; "td01"].

(* ================================================================== *)
(** * Properties *)

Example next_td_03 :
  next_project_type_number "td"
    [("td01", Dir []); ("notes", Dir []); ("td02", Dir []); ("td09", File "x")]
  = Ok 3.
Proof. reflexivity. Qed.

Example format_examples :
  format_02d 1 = "01" /\ format_02d 12 = "12" /\ format_02d 100 = "100".
Proof. repeat split. Qed.

Example stem_examples :
  stem "a.pdf" = "a" /\ stem ".pdf" = ".pdf" /\ stem "a.b.pdf" = "a.b" /\
  stem "..pdf" = "." /\ stem "a." = "a." /\ stem "noext" = "noext".
Proof. repeat split. Qed.

Example td_on_sample_world :
  td sample_mtime sample_time "2026-11-03" 5 sample_world
  = Ok {| home := [("Documents", Dir []);
                   ("Downloads", Dir [("old.zip", File "PK")])];
          workdir :=
            [("td01", Dir [("sujet.pdf", File "%PDF-td1")]);
             ("cours.md", File "# cours");
             ("td02",
              Dir [("data", Dir [("x.csv", File "1,2"); ("img", Dir [])]);
                   ("sujet.pdf", File "%PDF-1.7");
                   ("sujet_rendu_Colin_PROKOPOWICZ.md",
                    File (markdown_header "2026-11-03" "sujet"))])];
          cwd := ["td02"] |}.
Proof. reflexivity. Qed.

(* ------------------------------------------------------------------ *)
(** ** Strings *)

Lemma append_assoc (s t u : string) : (s ++ t) ++ u = s ++ t ++ u.
Proof.
  induction s as [|c r IH]; [reflexivity|].
  cbn [append]. rewrite IH. reflexivity.
Qed.

(* ------------------------------------------------------------------ *)
(** ** Directories *)

Lemma lookup_delete_same (n : string) (d : directory) :
  lookup n (delete n d) = None.
Proof.
  induction d as [|[m x] r IH]; simpl; [reflexivity|].
  destruct (String.eqb n m) eqn:E; [exact IH|].
  simpl. rewrite E. exact IH.
Qed.

Lemma lookup_delete_other (n m : string) (d : directory) :
  n <> m -> lookup n (delete m d) = lookup n d.
Proof.
  intros Hnm. induction d as [|[k x] r IH]; simpl; [reflexivity|].
  destruct (String.eqb m k) eqn:E.
  - apply String.eqb_eq in E. subst k.
    apply String.eqb_neq in Hnm. rewrite Hnm. exact IH.
  - simpl. rewrite IH. reflexivity.
Qed.

Lemma lookup_put_same (n : string) (x : node) (d : directory) :
  lookup n (put n x d) = Some x.
Proof.
  induction d as [|[m y] r IH]; simpl.
  - rewrite String.eqb_refl. reflexivity.
  - destruct (String.eqb n m) eqn:E; simpl; rewrite E; [reflexivity|exact IH].
Qed.

Lemma lookup_put_other (n m : string) (x : node) (d : directory) :
  n <> m -> lookup n (put m x d) = lookup n d.
Proof.
  intros Hnm. induction d as [|[k y] r IH]; simpl.
  - apply String.eqb_neq in Hnm. rewrite Hnm. reflexivity.
  - destruct (String.eqb m k) eqn:E; simpl.
    + apply String.eqb_eq in E. subst k.
      apply String.eqb_neq in Hnm. rewrite Hnm. reflexivity.
    + rewrite IH. reflexivity.
Qed.

Lemma lookup_none_not_in (n : string) (d : directory) :
  lookup n d = None <-> ~ In n (names d).
Proof.
  induction d as [|[m x] r IH]; simpl.
  - split; [intros _ []|reflexivity].
  - destruct (String.eqb n m) eqn:E.
    + apply String.eqb_eq in E. subst m.
      split; [discriminate|]. intros H. exfalso. apply H. left; reflexivity.
    + apply String.eqb_neq in E. rewrite IH. split.
      * intros H [H1|H1]; [apply E; symmetry; exact H1|exact (H H1)].
      * intros H H1. apply H. right; exact H1.
Qed.


(* ------------------------------------------------------------------ *)
(** ** The next project number *)

Lemma purely_numeric_isdigit (s : string) :
  purely_numeric s = true -> isdigit s = true.
Proof.
  destruct s as [|c r]; [discriminate|].
  unfold purely_numeric, isdigit. generalize (String c r). clear c r.
  induction s as [|c r IH]; simpl; [reflexivity|].
  intros H. apply andb_true_iff in H. destruct H as [Hc Hr].
  unfold is_digit_char. rewrite Hc. simpl. exact (IH Hr).
Qed.

Lemma purely_numeric_py_int (s : string) :
  purely_numeric s = true -> py_int s = Ok (decimal_value 0 s).
Proof.
  destruct s as [|c r]; [discriminate|].
  unfold purely_numeric, py_int. intros H. rewrite H. reflexivity.
Qed.

(** With no directory of that prefix the number is 1. *)
Lemma next_number_no_prefix (project_type : string) (workdir : directory) :
  existing_project_type_dirs project_type workdir = [] ->
  next_project_type_number project_type workdir = Ok 1.
Proof.
  intros H. unfold next_project_type_number. rewrite H. reflexivity.
Qed.

(** Prefixes of two characters: where every suffix that passes [isdigit] is
    purely numeric, the comprehension computes the numbers of the
    specification. *)
Lemma numbers_two_chars (project_type : string) (ds : list string) :
  String.length project_type = 2%nat ->
  (forall n, In n ds -> isdigit (slice_from 2 n) = true ->
             purely_numeric (slice_from 2 n) = true) ->
  existing_project_type_numbers ds
  = Ok (spec_numeric_suffixes project_type ds).
Proof.
  intros Hlen. induction ds as [|n r IH]; intros Hdec; [reflexivity|].
  cbn [existing_project_type_numbers spec_numeric_suffixes]. rewrite Hlen.
  assert (Hr : existing_project_type_numbers r
               = Ok (spec_numeric_suffixes project_type r)).
  { apply IH. intros m Hm. apply Hdec. right; exact Hm. }
  destruct (isdigit (slice_from 2 n)) eqn:Hd.
  - rewrite (Hdec n (or_introl eq_refl) Hd).
    rewrite (purely_numeric_py_int _ (Hdec n (or_introl eq_refl) Hd)).
    cbn [bind]. rewrite Hr. reflexivity.
  - destruct (purely_numeric (slice_from 2 n)) eqn:Hp; [|exact Hr].
    apply purely_numeric_isdigit in Hp. congruence.
Qed.

(** X1: prefixes of two characters, with a numeric suffix present or no
    directory of that prefix: the code computes the number of the
    specification. *)
Lemma next_number_two_chars (project_type : string) (workdir : directory) :
  String.length project_type = 2%nat ->
  (forall n, In n (existing_project_type_dirs project_type workdir) ->
             isdigit (slice_from 2 n) = true ->
             purely_numeric (slice_from 2 n) = true) ->
  (existing_project_type_dirs project_type workdir = [] \/
   spec_numeric_suffixes project_type
     (existing_project_type_dirs project_type workdir) <> []) ->
  next_project_type_number project_type workdir
  = Ok (spec_next_number project_type workdir).
Proof.
  intros Hlen Hdec Hcase.
  unfold next_project_type_number, spec_next_number.
  pose proof (numbers_two_chars project_type _ Hlen Hdec) as Hn.
  destruct (existing_project_type_dirs project_type workdir) as [|n r];
    [reflexivity|].
  rewrite Hn. destruct Hcase as [Hnil|Hsome]; [discriminate|].
  cbn [bind].
  destruct (spec_numeric_suffixes project_type (n :: r)) as [|x xs];
    [contradiction|reflexivity].
Qed.

Lemma next_number_two_chars_witness :
  next_project_type_number "td"
    [("td01", Dir []); ("td02", Dir []); ("tdx", Dir [])]
  = Ok (spec_next_number "td"
          [("td01", Dir []); ("td02", Dir []); ("tdx", Dir [])]).
Proof.
  apply next_number_two_chars.
  - reflexivity.
  - simpl. intros n [H|[H|[H|[]]]]; subst n; simpl; intros H; congruence.
  - right. simpl. discriminate.
Defined.

(** C1, the code at the failing inputs: the slice [d.name[2:]] starts at the
    constant 2 and not at [len(project_type)].  With the type [proj] and the
    directory [proj01] the slice is [oj01], no number is found, [max] raises
    [ValueError] and no directory is created, where the specification numbers
    the new directory [proj02].  With the type [td1] and the directory
    [td101] the slice is [101] and the new directory is [td1102], where the
    specification names it [td102]. *)
Theorem C1_slice_starts_at_two :
  next_project_type_number "proj" [("proj01", Dir [])] = Raise ValueError /\
  project_dir_name "proj" (spec_next_number "proj" [("proj01", Dir [])])
  = "proj02" /\
  (forall st_mtime time today age move h c,
     generic_project st_mtime time today "proj" age move
       {| home := h; workdir := [("proj01", Dir [])]; cwd := c |}
     = Raise ValueError) /\
  next_project_type_number "td1" [("td101", Dir [])] = Ok 102 /\
  project_dir_name "td1" 102 = "td1102" /\
  project_dir_name "td1" (spec_next_number "td1" [("td101", Dir [])])
  = "td102".
Proof. repeat split. Qed.

(** C3, the code at the failing input: the guard tests the list of the
    directories of that prefix, not the list of their numbers.  With the
    type [td] and the single directory [tdx] no numeric suffix is found and
    [max] of the empty list raises [ValueError], where the specification
    yields 1. *)
Theorem C3_max_of_no_number_raises :
  existing_project_type_dirs "td" [("tdx", Dir [])] = ["tdx"] /\
  existing_project_type_numbers ["tdx"] = Ok [] /\
  next_project_type_number "td" [("tdx", Dir [])] = Raise ValueError /\
  spec_next_number "td" [("tdx", Dir [])] = 1 /\
  (forall st_mtime time today age move h c,
     generic_project st_mtime time today "td" age move
       {| home := h; workdir := [("tdx", Dir [])]; cwd := c |}
     = Raise ValueError).
Proof. repeat split. Qed.

(* ------------------------------------------------------------------ *)
(** ** The latest downloads *)

Section DownloadFacts.

Variable st_mtime : string -> Q.
Variable time : nat -> Q.

Lemma Qle_bool_false (a b : Q) : Qle_bool a b = false -> (b <= a)%Q.
Proof.
  intros H. destruct (Qlt_le_dec b a) as [Hlt|Hle].
  - apply Qlt_le_weak. exact Hlt.
  - apply Qle_bool_iff in Hle. congruence.
Qed.

Lemma insert_reverse_perm (f : string) (l : list string) :
  Permutation (insert_reverse st_mtime f l) (f :: l).
Proof.
  induction l as [|g r IH]; simpl; [apply Permutation_refl|].
  destruct (Qle_bool (st_mtime g) (st_mtime f)); [apply Permutation_refl|].
  apply perm_trans with (g :: f :: r).
  - apply perm_skip. exact IH.
  - apply perm_swap.
Qed.


Lemma insert_reverse_sorted (f : string) (l : list string) :
  StronglySorted (newer_first st_mtime) l ->
  StronglySorted (newer_first st_mtime) (insert_reverse st_mtime f l).
Proof.
  induction 1 as [|g r Hr IH Hg]; simpl.
  - constructor; constructor.
  - destruct (Qle_bool (st_mtime g) (st_mtime f)) eqn:E.
    + apply Qle_bool_iff in E.
      constructor; [constructor; assumption|].
      constructor; [exact E|].
      apply Forall_impl with (P := newer_first st_mtime g); [|exact Hg].
      intros h Hh. unfold newer_first in *.
      apply Qle_trans with (st_mtime g); assumption.
    + apply Qle_bool_false in E.
      constructor; [exact IH|].
      eapply Permutation_Forall.
      * apply Permutation_sym, insert_reverse_perm.
      * constructor; [exact E|exact Hg].
Qed.

Lemma sorted_reverse_sorted (l : list string) :
  StronglySorted (newer_first st_mtime) (sorted_reverse st_mtime l).
Proof.
  induction l as [|f r IH]; simpl; [constructor|].
  apply insert_reverse_sorted. exact IH.
Qed.

(** The sort is stable: the entries of one modification time come out in
the order of the list. *)
Lemma insert_reverse_stable (k : Q) (f : string) (l : list string) :
  filter (fun g => Qeq_bool (st_mtime g) k) (insert_reverse st_mtime f l)
  = filter (fun g => Qeq_bool (st_mtime g) k) (f :: l).
Proof.
  induction l as [|g r IH]; [reflexivity|].
  cbn [insert_reverse].
  destruct (Qle_bool (st_mtime g) (st_mtime f)) eqn:E; [reflexivity|].
  cbn [filter] in *. rewrite IH.
  destruct (Qeq_bool (st_mtime f) k) eqn:Ef; [|reflexivity].
  destruct (Qeq_bool (st_mtime g) k) eqn:Eg; [|reflexivity].
  apply Qeq_bool_iff in Ef. apply Qeq_bool_iff in Eg.
  assert (Hle : Qle_bool (st_mtime g) (st_mtime f) = true).
  { apply Qle_bool_iff. rewrite Ef, Eg. apply Qle_refl. }
  congruence.
Qed.

Lemma sorted_reverse_stable (k : Q) (l : list string) :
  filter (fun g => Qeq_bool (st_mtime g) k) (sorted_reverse st_mtime l)
  = filter (fun g => Qeq_bool (st_mtime g) k) l.
Proof.
  induction l as [|f r IH]; [reflexivity|].
  cbn [sorted_reverse fold_right]. rewrite insert_reverse_stable.
  cbn [filter]. fold (sorted_reverse st_mtime r). rewrite IH. reflexivity.
Qed.







End DownloadFacts.

(* ------------------------------------------------------------------ *)
(** ** The order of the floats *)

Lemma SFleb_rank (x y : spec_float) :
  x <> S754_nan -> y <> S754_nan ->
  (SFleb x y = true <-> Float64.rank_le (Float64.rank x) (Float64.rank y)).
Proof.
  intros Hx Hy.
  destruct x as [sx|sx| |sx mx ex]; [| |congruence|];
    (destruct y as [sy|sy| |sy my ey]; [| |congruence|]);
    try destruct sx; try destruct sy;
    unfold SFleb, SFcompare, Float64.rank_le, Float64.rank; cbn [fst snd];
    try (split; intros H; try reflexivity; try discriminate; lia).
  - change (Pos.compare_cont Eq mx my) with (Pos.compare mx my).
    destruct (Z.compare_spec ex ey) as [E|E|E];
      [destruct (Pos.compare_spec mx my) as [F|F|F]| |]; cbn [CompOpp];
      split; intros H; try reflexivity; try discriminate; lia.
  - change (Pos.compare_cont Eq mx my) with (Pos.compare mx my).
    destruct (Z.compare_spec ex ey) as [E|E|E];
      [destruct (Pos.compare_spec mx my) as [F|F|F]| |];
      split; intros H; try reflexivity; try discriminate; lia.
Qed.

Lemma SFltb_rank (x y : spec_float) :
  x <> S754_nan -> y <> S754_nan ->
  (SFltb x y = true <-> ~ Float64.rank_le (Float64.rank y) (Float64.rank x)).
Proof.
  intros Hx Hy.
  destruct x as [sx|sx| |sx mx ex]; [| |congruence|];
    (destruct y as [sy|sy| |sy my ey]; [| |congruence|]);
    try destruct sx; try destruct sy;
    unfold SFltb, SFcompare, Float64.rank_le, Float64.rank; cbn [fst snd];
    try (split; intros H; try reflexivity; try discriminate; lia).
  - change (Pos.compare_cont Eq mx my) with (Pos.compare mx my).
    destruct (Z.compare_spec ex ey) as [E|E|E];
      [destruct (Pos.compare_spec mx my) as [F|F|F]| |]; cbn [CompOpp];
      split; intros H; try reflexivity; try discriminate; lia.
  - change (Pos.compare_cont Eq mx my) with (Pos.compare mx my).
    destruct (Z.compare_spec ex ey) as [E|E|E];
      [destruct (Pos.compare_spec mx my) as [F|F|F]| |];
      split; intros H; try reflexivity; try discriminate; lia.
Qed.

Lemma SFleb_true_not_nan (x y : spec_float) :
  SFleb x y = true -> x <> S754_nan /\ y <> S754_nan.
Proof.
  intros H. split; intros ->; [discriminate H|].
  destruct x; discriminate H.
Qed.

Lemma SFleb_total (x y : spec_float) :
  x <> S754_nan -> y <> S754_nan -> SFleb x y = false -> SFleb y x = true.
Proof.
  intros Hx Hy H. apply SFleb_rank; [exact Hy|exact Hx|].
  assert (Hn : ~ Float64.rank_le (Float64.rank x) (Float64.rank y)).
  { intros Hle. apply SFleb_rank in Hle; [congruence|exact Hx|exact Hy]. }
  unfold Float64.rank_le in *. lia.
Qed.

Lemma SFleb_trans (x y z : spec_float) :
  SFleb x y = true -> SFleb y z = true -> SFleb x z = true.
Proof.
  intros H1 H2.
  destruct (SFleb_true_not_nan _ _ H1) as [Hx Hy].
  destruct (SFleb_true_not_nan _ _ H2) as [_ Hz].
  apply SFleb_rank in H1; [|exact Hx|exact Hy].
  apply SFleb_rank in H2; [|exact Hy|exact Hz].
  apply SFleb_rank; [exact Hx|exact Hz|].
  unfold Float64.rank_le in *. lia.
Qed.

(** For numbers, the test [x <= y] fails exactly when [y < x]. *)
Lemma SFleb_false_ltb (x y : spec_float) :
  x <> S754_nan -> y <> S754_nan ->
  (SFleb x y = false <-> SFltb y x = true).
Proof.
  intros Hx Hy. rewrite (SFltb_rank y x Hy Hx).
  rewrite <- (SFleb_rank x y Hx Hy).
  destruct (SFleb x y); split; congruence.
Qed.

(** Subtracting the float of [0] changes no comparison. *)
Lemma SFleb_sub_zero (t m : spec_float) :
  SFleb (Float64.sub t (S754_zero false)) m = SFleb t m.
Proof.
  destruct t as [[|]|[|]| |[|] mt et]; destruct m; reflexivity.
Qed.

(* ------------------------------------------------------------------ *)
(** ** The conversion of the seconds *)

Lemma digits2_pos_size (m : positive) : digits2_pos m = Pos.size m.
Proof. induction m; simpl; congruence. Qed.

Lemma digits2_pos_iter (k : positive) (m : positive) :
  digits2_pos (Pos.iter xO m k) = (digits2_pos m + k)%positive.
Proof.
  revert m. induction k using Pos.peano_ind; intros m.
  - simpl. lia.
  - rewrite Pos.iter_succ. simpl. rewrite IHk. lia.
Qed.

Lemma digits2_pos_small (m : positive) :
  Zpos m < 2 ^ 53 -> Zpos (digits2_pos m) <= 53.
Proof.
  intros H. rewrite digits2_pos_size.
  pose proof (Pos.size_le m) as Hle.
  assert (Hz : 2 ^ Zpos (Pos.size m) <= 2 * Zpos m).
  { change 2 with (Zpos 2) at 1. rewrite <- Pos2Z.inj_pow.
    change (2 * Zpos m) with (Zpos m~0).
    apply Pos2Z.pos_le_pos. exact Hle. }
  destruct (Z_le_gt_dec (Zpos (Pos.size m)) 53) as [Hs|Hs]; [exact Hs|].
  exfalso.
  assert (2 ^ 54 <= 2 ^ Zpos (Pos.size m)) by (apply Z.pow_le_mono_r; lia).
  change (2 ^ 54) with (2 * 2 ^ 53) in H0. lia.
Qed.

Lemma iter_xO_pow (p m : positive) :
  Zpos (Pos.iter xO m p) = Zpos m * 2 ^ Zpos p.
Proof.
  induction p using Pos.peano_ind.
  - simpl. lia.
  - rewrite Pos.iter_succ, Pos2Z.inj_xO, IHp, Pos2Z.inj_succ, Z.pow_succ_r by lia.
    lia.
Qed.

Lemma value_shifted (m p : positive) :
  (Float64.value (S754_finite false (Pos.iter xO m p) (Zneg p))
   == inject_Z (Zpos m))%Q.
Proof.
  unfold Float64.value. rewrite iter_xO_pow.
  rewrite inject_Z_mult.
  change (Zneg p) with (- Zpos p).
  rewrite Qpower_opp.
  assert (E : (inject_Z (2 ^ Zpos p) == 2 ^ Zpos p)%Q).
  { change 2%Q with (inject_Z 2). symmetry. 
    rewrite <- (Zpower_Qpower 2 (Zpos p)) by lia. reflexivity. }
  rewrite E.
  assert (Hn : ~ (2 ^ Zpos p == 0)%Q).
  { apply Qpower_not_0. discriminate. }
  field. exact Hn.
Qed.

(** An integer of 53 bits at most is a float. *)
Lemma of_int_small_pos (m : positive) :
  Zpos m < 2 ^ 53 ->
  exists m' e',
    Float64.of_int (Zpos m) = S754_finite false m' e' /\
    (Float64.value (S754_finite false m' e') == inject_Z (Zpos m))%Q.
Proof.
  intros H. pose proof (digits2_pos_small m H) as Hd.
  unfold Float64.of_int, binary_normalize, binary_round.
  set (d := digits2_pos m) in *.
  assert (Hfexp : fexp Float64.prec Float64.emax (Zpos d + 0) = Zpos d - 53).
  { unfold fexp, emin, Float64.prec, Float64.emax. lia. }
  rewrite Hfexp. unfold shl_align.
  assert (Haux : forall mz ez,
            Zpos (digits2_pos mz) = 53 -> -52 <= ez <= 0 ->
            binary_round_aux Float64.prec Float64.emax false (Zpos mz) ez
              loc_Exact
            = S754_finite false mz ez).
  { intros mz ez Hmz Hez. unfold binary_round_aux, shr_fexp.
    cbn [Zdigits2 shr_record_of_loc].
    assert (Hf : fexp Float64.prec Float64.emax (Zpos (digits2_pos mz) + ez)
                 - ez = 0).
    { unfold fexp, emin, Float64.prec, Float64.emax. lia. }
    rewrite Hf. cbn [shr shr_m loc_of_shr_record round_nearest_even].
    cbn [Zdigits2 shr_record_of_loc]. rewrite Hf.
    cbn [shr shr_m].
    assert (Hle : (ez <=? Float64.emax - Float64.prec) = true).
    { apply Z.leb_le. unfold Float64.emax, Float64.prec. lia. }
    rewrite Hle. reflexivity. }
  destruct (Zpos d - 53 - 0) as [|p|p] eqn:E.
  - exists m, 0. split; [apply Haux; [fold d; lia|lia]|].
    unfold Float64.value. change (2 ^ 0)%Q with 1%Q. ring.
  - lia.
  - exists (Pos.iter xO m p), (Zpos d - 53). split.
    + apply Haux; [rewrite digits2_pos_iter; fold d; lia|lia].
    + replace (Zpos d - 53) with (Zneg p) by lia. apply value_shifted.
Qed.

(** The seconds of an age convert, and exactly, when they are below
    [2 ^ 53]. *)
Lemma float_of_int_small (z : Z) :
  0 <= z < 2 ^ 53 ->
  exists a, Float64.float_of_int z = Ok a /\
            (Float64.value a == inject_Z z)%Q.
Proof.
  intros [H0 H1]. unfold Float64.float_of_int.
  destruct z as [|m|m];
    [exists (S754_zero false); split; reflexivity| |lia].
  destruct (of_int_small_pos m H1) as [m' [e' [E Hv]]]. rewrite E.
  exists (S754_finite false m' e'). split; [reflexivity|exact Hv].
Qed.

(* ------------------------------------------------------------------ *)
(** ** The latest downloads, on floats *)

Section FloatFacts.

Variable stat_mtime : string -> result spec_float.
Variable time : nat -> spec_float.

Lemma float_insert_perm (x : spec_float * string)
    (l : list (spec_float * string)) :
  Permutation (Float64.insert_reverse x l) (x :: l).
Proof.
  induction l as [|y r IH]; cbn [Float64.insert_reverse];
    [apply Permutation_refl|].
  destruct (SFleb (fst y) (fst x)); [apply Permutation_refl|].
  apply perm_trans with (y :: x :: r).
  - apply perm_skip. exact IH.
  - apply perm_swap.
Qed.

Lemma float_sorted_perm (l : list (spec_float * string)) :
  Permutation (Float64.sorted_reverse l) l.
Proof.
  induction l as [|x r IH]; cbn [Float64.sorted_reverse fold_right];
    [apply perm_nil|].
  apply perm_trans with (x :: Float64.sorted_reverse r).
  - apply float_insert_perm.
  - apply perm_skip. exact IH.
Qed.

Lemma float_insert_sorted (x : spec_float * string)
    (l : list (spec_float * string)) :
  fst x <> S754_nan ->
  Forall (fun y => fst y <> S754_nan) l ->
  StronglySorted (fun a b => SFleb (fst b) (fst a) = true) l ->
  StronglySorted (fun a b => SFleb (fst b) (fst a) = true)
    (Float64.insert_reverse x l).
Proof.
  intros Hx Hl Hs. induction Hs as [|y r Hr IH Hy]; cbn [Float64.insert_reverse].
  - constructor; constructor.
  - inversion Hl as [|? ? Hyn Hrn]; subst.
    destruct (SFleb (fst y) (fst x)) eqn:E.
    + constructor; [constructor; assumption|].
      constructor; [exact E|].
      apply Forall_impl with (2 := Hy). intros z Hz.
      apply SFleb_trans with (fst y); assumption.
    + constructor; [apply IH; exact Hrn|].
      eapply Permutation_Forall.
      * apply Permutation_sym, float_insert_perm.
      * constructor; [|exact Hy].
        apply SFleb_total; assumption.
Qed.

Lemma float_sorted_sorted (l : list (spec_float * string)) :
  Forall (fun y => fst y <> S754_nan) l ->
  StronglySorted (fun a b => SFleb (fst b) (fst a) = true)
    (Float64.sorted_reverse l).
Proof.
  induction 1 as [|x r Hx Hr IH]; cbn [Float64.sorted_reverse fold_right];
    [constructor|].
  apply float_insert_sorted; [exact Hx| |exact IH].
  eapply Permutation_Forall; [apply Permutation_sym, float_sorted_perm|exact Hr].
Qed.

(** The comprehension on a folder whose entries can be examined: it keeps
    the entry at position [j] exactly when the comparison holds at the
    reading of its own test. *)
Lemma float_filtered_ok (age : Z) (a : spec_float) (l : list string) :
  Float64.float_of_int (age * 60) = Ok a ->
  (forall f, In f l -> exists m, stat_mtime f = Ok m) ->
  forall i, exists r,
    Float64.filtered_files stat_mtime time i age l = Ok r /\
    (forall f, In f r <->
       exists j m, nth_error l j = Some f /\ stat_mtime f = Ok m /\
                   SFleb (Float64.sub (time (i + j)) a) m = true) /\
    (forall f, In f r -> In f l) /\
    (NoDup l -> NoDup r).
Proof.
  intros Ha. induction l as [|g l IH]; intros Hst i.
  - exists []. split; [reflexivity|]. split; [|split].
    + intros f. split; [intros []|]. intros [[|j] [m [H _]]]; discriminate.
    + intros f [].
    + intros _. constructor.
  - destruct (Hst g (or_introl eq_refl)) as [mg Hg].
    destruct (IH (fun f H => Hst f (or_intror H)) (S i))
      as [r [Hr [Hin [Hincl Hnd]]]].
    cbn [Float64.filtered_files]. unfold Float64.recent.
    rewrite Hg, Ha, Hr. cbn [bind].
    set (b := SFleb (Float64.sub (time i) a) mg).
    exists (if b then g :: r else r). split; [reflexivity|].
    split; [|split].
    + intros f. split.
      * intros H.
        assert (Hcase : (g = f /\ b = true) \/ In f r).
        { destruct b eqn:Eb.
          - destruct H as [H|H]; [left; split; [exact H|reflexivity]|right; exact H].
          - right; exact H. }
        destruct Hcase as [[-> Hb]|Hf].
        -- exists O, mg. rewrite Nat.add_0_r.
           split; [reflexivity|split; [exact Hg|exact Hb]].
        -- apply Hin in Hf. destruct Hf as [j [m [Hj [Hm Hle]]]].
           exists (S j), m. rewrite Nat.add_succ_r.
           split; [exact Hj|split; [exact Hm|exact Hle]].
      * intros [[|j] [m [Hj [Hm Hle]]]]; cbn [nth_error] in Hj.
        -- injection Hj as ->. rewrite Nat.add_0_r in Hle.
           assert (Em : m = mg) by congruence. subst m.
           fold b in Hle. rewrite Hle. left; reflexivity.
        -- rewrite Nat.add_succ_r in Hle.
           assert (Hf : In f r).
           { apply Hin. exists j, m. split; [exact Hj|split; assumption]. }
           destruct b; [right|]; exact Hf.
    + intros f H. destruct b; [destruct H as [H|H]; [left; exact H|]|];
        right; apply Hincl; exact H.
    + intros H. inversion H as [|? ? Hgl Hl]; subst.
      destruct b; [|apply Hnd; exact Hl].
      constructor; [|apply Hnd; exact Hl].
      intros Hgr. apply Hgl. apply Hincl. exact Hgr.
Qed.

(** The keys of a list whose entries can be examined. *)
Lemma float_keys_ok (l : list string) :
  Float64.stat_ok stat_mtime l ->
  exists ks,
    Float64.keys stat_mtime l = Ok ks /\
    map snd ks = l /\
    Forall (fun x => stat_mtime (snd x) = Ok (fst x) /\ fst x <> S754_nan) ks.
Proof.
  induction l as [|f r IH]; intros Hst.
  - exists []. repeat split. constructor.
  - destruct (Hst f (or_introl eq_refl)) as [m [Hm Hn]].
    destruct (IH (fun g H => Hst g (or_intror H))) as [ks [Hks [Hmap Hall]]].
    exists ((m, f) :: ks). cbn [Float64.keys]. rewrite Hm, Hks. cbn [bind].
    split; [reflexivity|]. split.
    + cbn [map snd]. rewrite Hmap. reflexivity.
    + constructor; [split; assumption|exact Hall].
Qed.

Lemma float_newer_first_map (ks : list (spec_float * string)) :
  Forall (fun x => stat_mtime (snd x) = Ok (fst x) /\ fst x <> S754_nan) ks ->
  StronglySorted (fun a b => SFleb (fst b) (fst a) = true) ks ->
  StronglySorted (Float64.newer_first stat_mtime) (map snd ks).
Proof.
  intros Hall Hs. induction Hs as [|x r Hr IH Hx]; cbn [map]; [constructor|].
  inversion Hall as [|? ? [Hxk _] Hrk]; subst.
  constructor; [apply IH; exact Hrk|].
  apply Forall_forall. intros g Hg. apply in_map_iff in Hg.
  destruct Hg as [y [<- Hy]].
  pose proof (proj1 (Forall_forall _ _) Hx y Hy) as Hle.
  pose proof (proj1 (Forall_forall _ _) Hrk y Hy) as [Hyk _].
  exists (fst x), (fst y). repeat split; assumption.
Qed.

(** The result of [get_latest_downloads] on a folder whose entries can be
    examined, for an age whose seconds convert to the float [a]. *)
Lemma float_latest_ok (home : directory) (age : Z) (a : spec_float) :
  Float64.float_of_int (age * 60) = Ok a ->
  Float64.stat_ok stat_mtime (names (children (download_dir home) home)) ->
  exists latest,
    Float64.get_latest_downloads stat_mtime time home age = Ok latest /\
    (forall f, In f latest <->
       exists i m,
         nth_error (names (children (download_dir home) home)) i = Some f /\
         stat_mtime f = Ok m /\
         SFleb (Float64.sub (time i) a) m = true) /\
    (wf_dir (children (download_dir home) home) -> NoDup latest) /\
    StronglySorted (Float64.newer_first stat_mtime) latest.
Proof.
  intros Ha Hst. unfold Float64.get_latest_downloads.
  set (all := names (children (download_dir home) home)) in *.
  destruct (float_filtered_ok age a all Ha) with (i := O)
    as [r [Hr [Hin [Hincl Hnd]]]].
  { intros f Hf. destruct (Hst f Hf) as [m [Hm _]]. exists m. exact Hm. }
  destruct (float_keys_ok r) as [ks [Hks [Hmap Hall]]].
  { intros f Hf. apply Hst. apply Hincl. exact Hf. }
  rewrite Hr. cbn [bind]. rewrite Hks. cbn [bind].
  assert (Hperm : Permutation (map snd (Float64.sorted_reverse ks)) r).
  { rewrite <- Hmap. apply Permutation_map. apply float_sorted_perm. }
  exists (map snd (Float64.sorted_reverse ks)). split; [reflexivity|].
  split; [|split].
  - intros f. rewrite <- (Hin f). split; intros H.
    + exact (Permutation_in _ Hperm H).
    + exact (Permutation_in _ (Permutation_sym Hperm) H).
  - intros Hwf. apply (Permutation_NoDup (Permutation_sym Hperm)).
    apply Hnd. exact Hwf.
  - assert (Hall' : Forall (fun x => stat_mtime (snd x) = Ok (fst x) /\
                                     fst x <> S754_nan)
                      (Float64.sorted_reverse ks)).
    { eapply Permutation_Forall;
        [apply Permutation_sym, float_sorted_perm|exact Hall]. }
    apply float_newer_first_map; [exact Hall'|].
    apply float_sorted_sorted.
    apply Forall_impl with (2 := Hall). intros x [_ Hx]. exact Hx.
Qed.




(** The conversion of the seconds fails on the first entry. *)
Lemma float_latest_overflow (home : directory) (age : Z) (e : exn) :
  Float64.float_of_int (age * 60) = Raise e ->
  names (children (download_dir home) home) <> [] ->
  (forall f, In f (names (children (download_dir home) home)) ->
     exists m, stat_mtime f = Ok m) ->
  Float64.get_latest_downloads stat_mtime time home age = Raise e.
Proof.
  intros Ha Hne Hst. unfold Float64.get_latest_downloads.
  destruct (names (children (download_dir home) home)) as [|f r];
    [congruence|].
  destruct (Hst f (or_introl eq_refl)) as [m Hm].
  cbn [Float64.filtered_files]. unfold Float64.recent.
  rewrite Hm, Ha. reflexivity.
Qed.

(** An entry that cannot be examined makes the comprehension raise. *)
Lemma float_filtered_raises (age : Z) (l : list string) (f : string) (e : exn) :
  In f l -> stat_mtime f = Raise e ->
  forall i, exists e', Float64.filtered_files stat_mtime time i age l = Raise e'.
Proof.
  intros Hin Hf. induction l as [|g r IH]; intros i; [destruct Hin|].
  cbn [Float64.filtered_files]. unfold Float64.recent.
  destruct (stat_mtime g) as [m|e0] eqn:Eg; [|exists e0; reflexivity].
  cbn [bind].
  destruct (Float64.float_of_int (age * 60)) as [a|e0];
    [|exists e0; reflexivity].
  cbn [bind].
  destruct Hin as [->|Hin]; [congruence|].
  destruct (IH Hin (S i)) as [e' He']. rewrite He'. exists e'. reflexivity.
Qed.

End FloatFacts.

Lemma sample_downloads_wf : wf_dir (children (download_dir sample_home) sample_home).
Proof.
  unfold wf_dir. simpl.
  repeat constructor; simpl; intuition discriminate.
Defined.

(** C4, counterexample: the limit is a rounded float, the seconds can be
    beyond the floats, and an entry can be out of the reach of [stat].  The
    download [f] is selected with a maximal age of 5 minutes although, as
    numbers, its modification time is less than the reading minus 300; with
    a maximal age of [10 ^ 400] minutes the harvest raises [OverflowError];
    and in a folder with an entry that [stat] cannot examine it raises
    [FileNotFoundError]. *)
Lemma C4_rounding_overflow_and_stat :
  (Float64.get_latest_downloads rounding_stat rounding_clock rounding_home 5
   = Ok ["f"] /\
   ~ (Float64.value (rounding_clock 0) - inject_Z (5 * 60)
      <= Float64.value rounding_mtime)%Q) /\
  Float64.get_latest_downloads sample_stat sample_clock sample_home (10 ^ 400)
  = Raise OverflowError /\
  Float64.get_latest_downloads dangling_stat sample_clock sample_home 5
  = Raise FileNotFoundError.
Proof.
  split; [split|split].
  - vm_compute. reflexivity.
  - vm_compute. intros H. apply H. reflexivity.
  - vm_compute. reflexivity.
  - vm_compute. reflexivity.
Qed.

(** C4 as amended: the harvest consults [Téléchargements] when it exists in
    the home directory and [Downloads] otherwise.  When every entry of the
    folder can be examined by [stat] and the seconds [max_age * 60] of a
    non-negative age convert to a float [a] (as they do, and exactly, below
    [2 ^ 53]), it returns; it selects exactly the entries whose modification
    time is at least the float difference of the reading of [time()] at
    their comparison and [a] (with one reading [now] for all of them: at
    least the float [now - a]), each of them once, and returns them by
    modification time, most recent first.  When the seconds are beyond the
    floats and the folder is not empty it raises [OverflowError], and it
    raises when some entry cannot be examined. *)
Theorem C4_get_latest_downloads_on_floats
    (stat_mtime : string -> result spec_float) (time : nat -> spec_float)
    (home : directory) (max_age : Z) :
  0 <= max_age ->
  wf_dir (children (download_dir home) home) ->
  let all_files := names (children (download_dir home) home) in
  let run := Float64.get_latest_downloads stat_mtime time home max_age in
  (exists_ telechargements home = true ->
   all_files = names (children telechargements home)) /\
  (exists_ telechargements home = false ->
   all_files = names (children "Downloads" home)) /\
  (forall a,
     Float64.stat_ok stat_mtime all_files ->
     Float64.float_of_int (max_age * 60) = Ok a ->
     exists latest,
       run = Ok latest /\
       (forall f, In f latest <->
          exists i m, nth_error all_files i = Some f /\
                      stat_mtime f = Ok m /\
                      SFleb (Float64.sub (time i) a) m = true) /\
       (forall now, (forall i, time i = now) ->
          forall f, In f latest <->
            In f all_files /\
            exists m, stat_mtime f = Ok m /\
                      SFleb (Float64.sub now a) m = true) /\
       NoDup latest /\
       StronglySorted (Float64.newer_first stat_mtime) latest) /\
  (max_age * 60 < 2 ^ 53 ->
   exists a, Float64.float_of_int (max_age * 60) = Ok a /\
             (Float64.value a == inject_Z (max_age * 60))%Q) /\
  (Float64.stat_ok stat_mtime all_files ->
   all_files <> [] ->
   Float64.float_of_int (max_age * 60) = Raise OverflowError ->
   run = Raise OverflowError) /\
  (forall f e, In f all_files -> stat_mtime f = Raise e ->
     exists e', run = Raise e').
Proof.
  intros Hage Hwf all_files run. subst all_files run.
  split; [|split; [|split; [|split; [|split]]]].
  - intros H. unfold download_dir. rewrite H. reflexivity.
  - intros H. unfold download_dir. rewrite H. reflexivity.
  - intros a Hst Ha.
    destruct (float_latest_ok stat_mtime time home max_age a Ha Hst)
      as [latest [Hrun [Hin [Hnd Hsorted]]]].
    exists latest. split; [exact Hrun|]. split; [exact Hin|].
    split; [|split; [exact (Hnd Hwf)|exact Hsorted]].
    intros now Hnow f. rewrite Hin. split.
    + intros [i [m [Hi [Hm Hle]]]]. rewrite Hnow in Hle.
      split; [apply nth_error_In with i; exact Hi|].
      exists m. split; assumption.
    + intros [Hf [m [Hm Hle]]]. apply In_nth_error in Hf.
      destruct Hf as [i Hi]. exists i, m. rewrite Hnow.
      split; [exact Hi|split; assumption].
  - intros Hsmall. apply float_of_int_small. lia.
  - intros Hst Hne Ha. apply float_latest_overflow; [exact Ha|exact Hne|].
    intros f Hf. destruct (Hst f Hf) as [m [Hm _]]. exists m. exact Hm.
  - intros f e Hf He. unfold Float64.get_latest_downloads.
    destruct (float_filtered_raises stat_mtime time max_age _ f e Hf He O)
      as [e' He'].
    rewrite He'. exists e'. reflexivity.
Qed.

Lemma sample_stat_ok :
  Float64.stat_ok sample_stat
    (names (children (download_dir sample_home) sample_home)).
Proof.
  intros f _. unfold sample_stat.
  destruct (String.eqb f "old.zip");
    [|destruct (String.eqb f "sujet.pdf")];
    eexists; (split; [reflexivity|discriminate]).
Defined.

Lemma C4_get_latest_downloads_on_floats_witness :
  Float64.get_latest_downloads sample_stat sample_clock sample_home 5
  = Ok ["data"; "sujet.pdf"] /\
  exists latest,
    Float64.get_latest_downloads sample_stat sample_clock sample_home 5
    = Ok latest /\
    NoDup latest /\
    StronglySorted (Float64.newer_first sample_stat) latest.
Proof.
  split; [reflexivity|].
  assert (H5 : 0 <= 5) by lia.
  destruct (C4_get_latest_downloads_on_floats sample_stat sample_clock
              sample_home 5 H5 sample_downloads_wf)
    as [_ [_ [H _]]].
  destruct (H (Float64.of_int 300) sample_stat_ok eq_refl)
    as [latest [Hrun [_ [_ [Hnd Hs]]]]].
  exists latest. split; [exact Hrun|split; [exact Hnd|exact Hs]].
Defined.

(** C9, counterexample: an entry whose modification time lies after the
    reading of the clock is selected with a maximal age of 0. *)
Lemma C9_future_mtime_is_selected :
  ~ (forall (stat_mtime : string -> result spec_float)
            (time : nat -> spec_float) (home : directory),
       Float64.get_latest_downloads stat_mtime time home 0 = Ok []).
Proof.
  intros H.
  specialize (H future_stat future_clock
                [("Downloads", Dir [("sujet.pdf", File "%PDF-1.7")])]).
  discriminate H.
Qed.

(** C9 as amended: in a download folder whose entries can all be examined by
    [stat], the harvest with a maximal age of 0 returns; it selects exactly
    the entries whose modification time is not earlier than the reading of
    [time()] at their comparison (the float of 0 is subtracted, which
    changes nothing); it selects no file exactly when every entry of the
    download folder was modified before that reading. *)
Theorem C9_zero_age_selects_from_the_reading_on
    (stat_mtime : string -> result spec_float) (time : nat -> spec_float)
    (home : directory) :
  let all_files := names (children (download_dir home) home) in
  Float64.stat_ok stat_mtime all_files ->
  (forall i, time i <> S754_nan) ->
  exists latest,
    Float64.get_latest_downloads stat_mtime time home 0 = Ok latest /\
    (forall f, In f latest <->
       exists i m, nth_error all_files i = Some f /\
                   stat_mtime f = Ok m /\
                   SFleb (time i) m = true) /\
    (latest = [] <->
     forall i f m, nth_error all_files i = Some f ->
                   stat_mtime f = Ok m -> SFltb m (time i) = true).
Proof.
  intros all_files Hst Htime.
  destruct (float_latest_ok stat_mtime time home 0 (S754_zero false)
              eq_refl Hst) as [latest [Hrun [Hin _]]].
  assert (Hin' : forall f, In f latest <->
            exists i m, nth_error all_files i = Some f /\
                        stat_mtime f = Ok m /\ SFleb (time i) m = true).
  { intros f. rewrite Hin. split; intros [i [m [Hi [Hm Hle]]]];
      exists i, m; (split; [exact Hi|split; [exact Hm|]]).
    - rewrite SFleb_sub_zero in Hle. exact Hle.
    - rewrite SFleb_sub_zero. exact Hle. }
  exists latest. split; [exact Hrun|]. split; [exact Hin'|]. split.
  - intros Hnil i f m Hi Hm.
    destruct (Hst f (nth_error_In _ _ Hi)) as [m' [Hm' Hn]].
    assert (m' = m) by congruence. subst m'.
    apply SFleb_false_ltb; [apply Htime|exact Hn|].
    destruct (SFleb (time i) m) eqn:E; [|reflexivity].
    assert (Hf : In f latest).
    { apply Hin'. exists i, m. split; [exact Hi|split; assumption]. }
    rewrite Hnil in Hf. destruct Hf.
  - intros Hall. destruct latest as [|f r]; [reflexivity|].
    assert (Hf : In f (f :: r)) by (left; reflexivity).
    apply Hin' in Hf. destruct Hf as [i [m [Hi [Hm Hle]]]].
    destruct (Hst f (nth_error_In _ _ Hi)) as [m' [Hm' Hn]].
    assert (m' = m) by congruence. subst m'.
    pose proof (Hall i f m Hi Hm) as Hlt.
    apply SFleb_false_ltb in Hlt; [congruence|apply Htime|exact Hn].
Qed.

Lemma C9_zero_age_selects_from_the_reading_on_witness :
  exists latest,
    Float64.get_latest_downloads sample_stat sample_clock sample_home 0
    = Ok latest /\
    (forall f, In f latest <->
       exists i m,
         nth_error (names (children (download_dir sample_home) sample_home)) i
         = Some f /\
         sample_stat f = Ok m /\
         SFleb (sample_clock i) m = true) /\
    (latest = [] <->
     forall i f m,
       nth_error (names (children (download_dir sample_home) sample_home)) i
       = Some f ->
       sample_stat f = Ok m -> SFltb m (sample_clock i) = true).
Proof.
  apply (C9_zero_age_selects_from_the_reading_on sample_stat sample_clock
           sample_home).
  - exact sample_stat_ok.
  - intros i. discriminate.
Defined.

(* ------------------------------------------------------------------ *)
(** ** The harvest loop *)


Lemma exists_false_lookup (f : string) (d : directory) :
  exists_ f d = false <-> lookup f d = None.
Proof.
  unfold exists_. destruct (lookup f d); split; congruence.
Qed.







(* ------------------------------------------------------------------ *)
(** ** The harvest on one file system *)







(* ------------------------------------------------------------------ *)
(** ** The harvest of the candidates, on one file system *)











(* ------------------------------------------------------------------ *)
(** ** The Markdown stubs *)

(** The loop over the PDF files raises nothing and only adds: an entry of
    the destination stays as it is, and a missing stub of a PDF is created
    with the header of that PDF. *)
Lemma stubs_for_pdfs_spec (today : string) (pdf_files : list string) :
  forall d,
  exists d',
    stubs_for_pdfs today pdf_files d = Ok d' /\
    forall m,
      lookup m d' =
      match lookup m d with
      | Some x => Some x
      | None =>
          match first_pdf_for m pdf_files with
          | Some p => Some (File (markdown_header today (stem p)))
          | None => None
          end
      end.
Proof.
  induction pdf_files as [|p r IH]; intros d.
  - exists d. split; [reflexivity|]. intros m. simpl.
    destruct (lookup m d); reflexivity.
  - cbn [stubs_for_pdfs first_pdf_for].
    destruct (exists_ (stub_name p) d) eqn:Ex.
    + destruct (IH d) as [d' [Hrun Hd']]. exists d'. split; [exact Hrun|].
      intros m. rewrite Hd'. destruct (lookup m d) eqn:Em; [reflexivity|].
      destruct (String.eqb m (stub_name p)) eqn:E; [|reflexivity].
      apply String.eqb_eq in E. subst m.
      apply exists_false_lookup in Em. congruence.
    + apply exists_false_lookup in Ex.
      unfold write_text. rewrite Ex. cbn [bind].
      destruct (IH (put (stub_name p)
                      (File (markdown_header today (stem p))) d))
        as [d' [Hrun Hd']].
      exists d'. split; [exact Hrun|].
      intros m. rewrite Hd'.
      destruct (String.eqb m (stub_name p)) eqn:E.
      * apply String.eqb_eq in E. subst m.
        rewrite lookup_put_same, Ex. reflexivity.
      * apply String.eqb_neq in E. rewrite lookup_put_other by exact E.
        reflexivity.
Qed.

(** Where every PDF has its stub the loop changes nothing. *)
Lemma stubs_for_pdfs_noop (today : string) (pdf_files : list string)
    (d : directory) :
  (forall p, In p pdf_files -> exists_ (stub_name p) d = true) ->
  stubs_for_pdfs today pdf_files d = Ok d.
Proof.
  induction pdf_files as [|p r IH]; intros H; [reflexivity|].
  cbn [stubs_for_pdfs]. rewrite (H p (or_introl eq_refl)).
  apply IH. intros q Hq. apply H. right; exact Hq.
Qed.

(** C7: a destination whose PDF files are [a.pdf] and [b.pdf], in either
    order of enumeration, and that has neither stub: the generation raises
    nothing, creates [a_rendu_Colin_PROKOPOWICZ.md] and
    [b_rendu_Colin_PROKOPOWICZ.md] and touches no other entry; each stub
    holds the template, front matter with the title [Rendu] followed by the
    stem, the author [Colin PROKOPOWICZ] and the date of the day in ISO
    format, then a heading of level 1 with the stem. *)
Theorem C7_stubs_for_a_and_b (today : string) (fallback : Z) (d : directory) :
  Permutation ["a.pdf"; "b.pdf"] (glob_ending ".pdf" d) ->
  exists_ "a_rendu_Colin_PROKOPOWICZ.md" d = false ->
  exists_ "b_rendu_Colin_PROKOPOWICZ.md" d = false ->
  exists d',
    _create_md_files_for_pdfs today fallback d = Ok d' /\
    (forall t,
       (t = "a" \/ t = "b") ->
       lookup (t ++ "_rendu_Colin_PROKOPOWICZ.md") d' =
       Some (File ("---" ++ newline ++
                   "title: " ++ dquote ++ "Rendu " ++ t ++ dquote ++ newline ++
                   "author: " ++ dquote ++ "Colin PROKOPOWICZ" ++ dquote
                     ++ newline ++
                   "date: " ++ dquote ++ today ++ dquote ++ newline ++
                   "---" ++ newline ++ newline ++
                   "# " ++ t ++ newline ++ newline))) /\
    (forall m,
       m <> "a_rendu_Colin_PROKOPOWICZ.md" ->
       m <> "b_rendu_Colin_PROKOPOWICZ.md" ->
       lookup m d' = lookup m d).
Proof.
  intros Hperm Ha Hb.
  apply exists_false_lookup in Ha. apply exists_false_lookup in Hb.
  unfold _create_md_files_for_pdfs.
  destruct (stubs_for_pdfs_spec today (glob_ending ".pdf" d) d)
    as [d' [Hrun Hd']].
  exists d'.
  assert (Hfirst : forall m,
            first_pdf_for m (glob_ending ".pdf" d) =
            if String.eqb m "a_rendu_Colin_PROKOPOWICZ.md" then Some "a.pdf"
            else if String.eqb m "b_rendu_Colin_PROKOPOWICZ.md"
                 then Some "b.pdf" else None).
  { intros m. apply Permutation_length_2_inv in Hperm.
    destruct Hperm as [E|E]; rewrite E; cbn [first_pdf_for];
      change (stub_name "a.pdf") with "a_rendu_Colin_PROKOPOWICZ.md";
      change (stub_name "b.pdf") with "b_rendu_Colin_PROKOPOWICZ.md";
      [reflexivity|].
    destruct (String.eqb m "b_rendu_Colin_PROKOPOWICZ.md") eqn:E1;
      [|reflexivity].
    apply String.eqb_eq in E1. subst m. reflexivity. }
  split; [|split].
  - destruct (glob_ending ".pdf" d) as [|p r] eqn:E; [|exact Hrun].
    apply Permutation_length in Hperm. discriminate Hperm.
  - intros t [-> | ->]; rewrite Hd', Hfirst; cbn [append];
      [rewrite Ha|rewrite Hb]; reflexivity.
  - intros m Hma Hmb. rewrite Hd', Hfirst.
    apply String.eqb_neq in Hma. apply String.eqb_neq in Hmb.
    rewrite Hma, Hmb. destruct (lookup m d); reflexivity.
Qed.

Lemma C7_stubs_for_a_and_b_witness :
  exists d',
    _create_md_files_for_pdfs "2026-11-03" 1
      [("b.pdf", File "%PDF-b"); ("notes.txt", File "n"); ("a.pdf", File "%PDF-a")]
    = Ok d' /\
    names d' = ["b.pdf"; "notes.txt"; "a.pdf";
                "b_rendu_Colin_PROKOPOWICZ.md"; "a_rendu_Colin_PROKOPOWICZ.md"].
Proof.
  destruct (C7_stubs_for_a_and_b "2026-11-03" 1
              [("b.pdf", File "%PDF-b"); ("notes.txt", File "n");
               ("a.pdf", File "%PDF-a")])
    as [d' [Hrun _]].
  - simpl. apply perm_swap.
  - reflexivity.
  - reflexivity.
  - exists d'. split; [exact Hrun|].
    simpl in Hrun. injection Hrun as <-. reflexivity.
Defined.

(** C8, counterexample: the destination holds no PDF and a directory that
    has the name of the fallback stub; [write_text] raises
    [IsADirectoryError] and no stub is created. *)
Lemma C8_fallback_name_taken_by_a_directory :
  ~ (forall (today : string) (fallback : Z) (d : directory),
       glob_ending ".pdf" d = [] ->
       exists d', _create_md_files_for_pdfs today fallback d = Ok d').
Proof.
  intros H.
  destruct (H "2026-11-03" 1
              [("project01_rendu_Colin_PROKOPOWICZ.md", Dir [])] eq_refl)
    as [d' Hd'].
  discriminate Hd'.
Qed.

(** C8 as amended: a destination without PDF files, the name of the fallback
    stub, [project{fallback:02d}_rendu_Colin_PROKOPOWICZ.md], being of 255
    characters at most.  When no entry has that name the generation
    returns; the one entry it writes has that name, the title of its header
    is that name without [.md], and every other entry is as before.  When a
    directory has that name the generation raises [IsADirectoryError]. *)
Theorem C8_fallback_stub (today : string) (fallback : Z) (d : directory) :
  let name :=
    "project" ++ format_02d fallback ++ "_rendu_Colin_PROKOPOWICZ.md" in
  glob_ending ".pdf" d = [] ->
  (String.length name <= 255)%nat ->
  (lookup name d = None ->
   exists d',
     _create_md_files_for_pdfs today fallback d = Ok d' /\
     lookup name d'
     = Some (File (markdown_header today
                     ("project" ++ format_02d fallback
                        ++ "_rendu_Colin_PROKOPOWICZ"))) /\
     (forall m, m <> name -> lookup m d' = lookup m d)) /\
  (forall ch,
     lookup name d = Some (Dir ch) ->
     _create_md_files_for_pdfs today fallback d = Raise IsADirectoryError).
Proof.
  intros name Hglob _.
  assert (Hname : fallback_title fallback ++ ".md" = name).
  { unfold name, fallback_title, rendu_tail. rewrite !append_assoc.
    reflexivity. }
  unfold _create_md_files_for_pdfs. rewrite Hglob.
  cbv zeta. rewrite Hname. unfold write_text. split.
  - intros Hfree. rewrite Hfree.
    exists (put name (File (markdown_header today (fallback_title fallback))) d).
    split; [reflexivity|]. split.
    + apply lookup_put_same.
    + intros m Hm. apply lookup_put_other. exact Hm.
  - intros ch Hdir. rewrite Hdir. reflexivity.
Qed.

Lemma C8_fallback_stub_witness :
  exists d',
    _create_md_files_for_pdfs "2026-11-03" 3 [("notes.txt", File "n")] = Ok d' /\
    lookup "project03_rendu_Colin_PROKOPOWICZ.md" d'
    = Some (File (markdown_header "2026-11-03"
                    "project03_rendu_Colin_PROKOPOWICZ")) /\
    (forall m,
       m <> "project03_rendu_Colin_PROKOPOWICZ.md" ->
       lookup m d' = lookup m [("notes.txt", File "n")]).
Proof.
  destruct (C8_fallback_stub "2026-11-03" 3 [("notes.txt", File "n")])
    as [H _].
  - reflexivity.
  - simpl. lia.
  - exact (H eq_refl).
Defined.

(** *** Running the generation again *)

Lemma length_append (s t : string) :
  String.length (s ++ t) = (String.length s + String.length t)%nat.
Proof.
  induction s as [|c r IH]; [reflexivity|]. cbn [append String.length].
  rewrite IH. reflexivity.
Qed.

Lemma endswith_append (s t p : string) :
  (String.length p <= String.length t)%nat ->
  endswith (s ++ t) p = endswith t p.
Proof.
  intros Hlen. unfold endswith.
  assert (Hsub : substring (String.length (s ++ t) - String.length p)
                   (String.length p) (s ++ t)
                 = substring (String.length t - String.length p)
                     (String.length p) t).
  { induction s as [|c r IH]; [reflexivity|].
    cbn [append String.length].
    replace (S (String.length (r ++ t)) - String.length p)%nat
      with (S (String.length (r ++ t) - String.length p))
      by (rewrite length_append; lia).
    cbn [substring]. exact IH. }
  rewrite Hsub. f_equal.
  rewrite length_append.
  destruct (Nat.leb_spec (String.length p) (String.length t));
    destruct (Nat.leb_spec (String.length p) (String.length s + String.length t));
    try reflexivity; lia.
Qed.

(** A stub is no PDF. *)
Lemma stub_name_not_pdf (p : string) : endswith (stub_name p) ".pdf" = false.
Proof.
  unfold stub_name. rewrite endswith_append; [reflexivity|].
  simpl. lia.
Qed.

Lemma names_put_new (n : string) (x : node) (d : directory) :
  lookup n d = None -> names (put n x d) = (names d ++ [n])%list.
Proof.
  induction d as [|[m y] r IH]; simpl; [reflexivity|].
  destruct (String.eqb n m); [discriminate|].
  intros H. simpl. rewrite (IH H). reflexivity.
Qed.

(** The loop adds no PDF. *)
Lemma stubs_for_pdfs_glob (today : string) (pdf_files : list string) :
  forall d d',
    stubs_for_pdfs today pdf_files d = Ok d' ->
    glob_ending ".pdf" d' = glob_ending ".pdf" d.
Proof.
  induction pdf_files as [|p r IH]; intros d d' Hrun.
  - simpl in Hrun. injection Hrun as <-. reflexivity.
  - cbn [stubs_for_pdfs] in Hrun.
    destruct (exists_ (stub_name p) d) eqn:Ex; [exact (IH _ _ Hrun)|].
    apply exists_false_lookup in Ex.
    unfold write_text in Hrun. rewrite Ex in Hrun. cbn [bind] in Hrun.
    rewrite (IH _ _ Hrun). unfold glob_ending.
    rewrite (names_put_new _ _ _ Ex), filter_app. simpl.
    rewrite stub_name_not_pdf. apply app_nil_r.
Qed.

Lemma first_pdf_for_in (p : string) (pdf_files : list string) :
  In p pdf_files -> first_pdf_for (stub_name p) pdf_files <> None.
Proof.
  induction pdf_files as [|q r IH]; intros Hin; [destruct Hin|].
  cbn [first_pdf_for].
  destruct (String.eqb (stub_name p) (stub_name q)) eqn:E; [discriminate|].
  destruct Hin as [->|Hin]; [|exact (IH Hin)].
  rewrite String.eqb_refl in E. discriminate.
Qed.

(** X2: with a PDF in the destination the generation is idempotent: a
    second pass, on any day and with any fallback number, leaves the
    directory of the first pass as it is. *)
Lemma stubs_rerun_with_pdfs (today today' : string) (n n' : Z)
    (d d' : directory) :
  glob_ending ".pdf" d <> [] ->
  _create_md_files_for_pdfs today n d = Ok d' ->
  _create_md_files_for_pdfs today' n' d' = Ok d'.
Proof.
  unfold _create_md_files_for_pdfs. intros Hpdf Hrun.
  assert (Hrun' : stubs_for_pdfs today (glob_ending ".pdf" d) d = Ok d').
  { destruct (glob_ending ".pdf" d); [contradiction|exact Hrun]. }
  rewrite (stubs_for_pdfs_glob _ _ _ _ Hrun').
  assert (Hnoop : stubs_for_pdfs today' (glob_ending ".pdf" d) d' = Ok d').
  { apply stubs_for_pdfs_noop. intros p Hp.
    destruct (stubs_for_pdfs_spec today (glob_ending ".pdf" d) d)
      as [d2 [Hrun2 Hd2]].
    rewrite Hrun' in Hrun2. injection Hrun2 as <-.
    unfold exists_. rewrite Hd2.
    destruct (lookup (stub_name p) d); [reflexivity|].
    pose proof (first_pdf_for_in p _ Hp) as Hf.
    destruct (first_pdf_for (stub_name p) (glob_ending ".pdf" d));
      [reflexivity|contradiction]. }
  destruct (glob_ending ".pdf" d); [contradiction|exact Hnoop].
Qed.

Lemma stubs_rerun_with_pdfs_witness :
  exists d',
    _create_md_files_for_pdfs "2026-11-03" 1 [("a.pdf", File "%PDF-a")] = Ok d' /\
    _create_md_files_for_pdfs "2026-11-04" 2 d' = Ok d'.
Proof.
  exists [("a.pdf", File "%PDF-a");
          ("a_rendu_Colin_PROKOPOWICZ.md",
           File (markdown_header "2026-11-03" "a"))].
  split; [reflexivity|].
  apply (stubs_rerun_with_pdfs "2026-11-03" "2026-11-04" 1 2
           [("a.pdf", File "%PDF-a")]).
  - simpl. discriminate.
  - reflexivity.
Defined.

(** C2, the code at the failing input: without a PDF the fallback stub is
    written with no test of its existence.  A destination that holds only the
    fallback stub, edited by hand, loses that text to the template; and the
    stub of a first pass is rewritten, with the new date, by a pass of the
    next day.  The branch of the PDF files tests the existence and keeps an
    edited stub. *)
Theorem C2_fallback_stub_is_overwritten :
  _create_md_files_for_pdfs "2026-11-03" 1
    [("project01_rendu_Colin_PROKOPOWICZ.md", File "# my work")]
  = Ok [("project01_rendu_Colin_PROKOPOWICZ.md",
         File (markdown_header "2026-11-03"
                 "project01_rendu_Colin_PROKOPOWICZ"))] /\
  markdown_header "2026-11-03" "project01_rendu_Colin_PROKOPOWICZ"
  <> "# my work" /\
  (exists d1 d2,
     _create_md_files_for_pdfs "2026-11-03" 1 [] = Ok d1 /\
     _create_md_files_for_pdfs "2026-11-04" 1 d1 = Ok d2 /\
     d2 <> d1) /\
  _create_md_files_for_pdfs "2026-11-03" 1
    [("a.pdf", File "%PDF-a");
     ("a_rendu_Colin_PROKOPOWICZ.md", File "# my work")]
  = Ok [("a.pdf", File "%PDF-a");
        ("a_rendu_Colin_PROKOPOWICZ.md", File "# my work")].
Proof.
  split; [reflexivity|]. split; [discriminate|]. split; [|reflexivity].
  eexists. eexists. split; [reflexivity|]. split; [reflexivity|].
  discriminate.
Qed.

(* ------------------------------------------------------------------ *)
(** ** [rendu] *)

Lemma unlink_file (n c : string) (d : directory) :
  lookup n d = Some (File c) ->
  unlink n d = Ok (delete n d).
Proof. intros H. unfold unlink. rewrite H. reflexivity. Qed.

(** C10: in the loop of [rendu] with [overwrite], at a Markdown file whose
    companion PDF exists, the PDF is unlinked first and the converter runs
    on the directory without it; whatever code the converter returns, zero
    or not, the loop goes on with the next files from the directory the
    converter left, so a failed conversion that wrote nothing leaves the
    directory without the PDF it had. *)
Theorem C10_overwrite_unlinks_before_converting
    (WORKDIR TD_LATEX_HEADER : string)
    (subprocess_run : list string -> directory -> directory * result Z)
    (md_file : string) (rest : list string) (d : directory) (c : string) :
  let pdf_file := with_suffix md_file ".pdf" in
  let args := pandoc_args WORKDIR TD_LATEX_HEADER pdf_file md_file in
  let loop := rendu_loop WORKDIR TD_LATEX_HEADER subprocess_run true in
  lookup pdf_file d = Some (File c) ->
  exists d1,
    unlink pdf_file d = Ok d1 /\
    lookup pdf_file d1 = None /\
    (forall m, m <> pdf_file -> lookup m d1 = lookup m d) /\
    (forall d2 returncode,
       subprocess_run args d1 = (d2, Ok returncode) ->
       loop (md_file :: rest) d = loop rest d2) /\
    (forall returncode,
       returncode <> 0 ->
       subprocess_run args d1 = (d1, Ok returncode) ->
       loop (md_file :: rest) d = loop rest d1 /\
       loop [md_file] d = (d1, Ok tt)).
Proof.
  intros pdf_file args loop Hpdf.
  exists (delete pdf_file d).
  assert (Hstep : forall l d2 returncode,
            subprocess_run args (delete pdf_file d) = (d2, Ok returncode) ->
            loop (md_file :: l) d = loop l d2).
  { intros l d2 rc Hrun. unfold loop. cbn [rendu_loop].
    fold pdf_file. unfold exists_. rewrite Hpdf.
    rewrite (unlink_file _ _ _ Hpdf).
    unfold convert, subprocess_run_check. fold args. rewrite Hrun.
    destruct (rc =? 0); reflexivity. }
  split; [exact (unlink_file _ _ _ Hpdf)|].
  split; [apply lookup_delete_same|].
  split; [intros m Hm; apply lookup_delete_other; exact Hm|].
  split; [exact (Hstep rest)|].
  intros rc _ Hrun. split; [exact (Hstep rest _ _ Hrun)|].
  rewrite (Hstep [] _ _ Hrun). reflexivity.
Qed.

Lemma C10_overwrite_unlinks_before_converting_witness :
  rendu "/home/colin/c1" "td_header.tex" failing_pandoc true sample_workdir
  = ([("td01_rendu_Colin_PROKOPOWICZ.md", File "# td01");
      ("td02_rendu_Colin_PROKOPOWICZ.md", File "# td02")], Ok tt) /\
  exists d1,
    unlink "td01_rendu_Colin_PROKOPOWICZ.pdf" sample_workdir = Ok d1 /\
    lookup "td01_rendu_Colin_PROKOPOWICZ.pdf" d1 = None /\
    rendu_loop "/home/colin/c1" "td_header.tex" failing_pandoc true
      ["td01_rendu_Colin_PROKOPOWICZ.md"; "td02_rendu_Colin_PROKOPOWICZ.md"]
      sample_workdir
    = rendu_loop "/home/colin/c1" "td_header.tex" failing_pandoc true
        ["td02_rendu_Colin_PROKOPOWICZ.md"] d1.
Proof.
  split; [reflexivity|].
  destruct (C10_overwrite_unlinks_before_converting
              "/home/colin/c1" "td_header.tex" failing_pandoc
              "td01_rendu_Colin_PROKOPOWICZ.md"
              ["td02_rendu_Colin_PROKOPOWICZ.md"] sample_workdir "%PDF-old")
    as [d1 [H1 [H2 [_ [H4 _]]]]].
  - reflexivity.
  - exists d1. split; [exact H1|]. split; [exact H2|].
    apply (H4 d1 43).
    unfold failing_pandoc. reflexivity.
Defined.

(* ================================================================== *)
(** * Further properties of the component *)

Ltac digit_code :=
  match goal with
  | |- context [Z.of_nat (nat_of_ascii ?c)] =>
      let v := eval vm_compute in (Z.of_nat (nat_of_ascii c)) in
      change (Z.of_nat (nat_of_ascii c)) with v
  end.

Lemma decimal_value_acc (d : Decimal.uint) (acc : positive) :
  decimal_value (Z.pos acc) (NilEmpty.string_of_uint d)
  = Z.pos (Pos.of_uint_acc d acc).
Proof.
  revert acc. induction d; intros acc; cbn [NilEmpty.string_of_uint
    decimal_value Pos.of_uint_acc]; try reflexivity;
    rewrite <- IHd; f_equal; digit_code; lia.
Qed.

Lemma decimal_value_of_uint (d : Decimal.uint) :
  decimal_value 0 (NilEmpty.string_of_uint d) = Z.of_N (Pos.of_uint d).
Proof.
  induction d; cbn [NilEmpty.string_of_uint decimal_value Pos.of_uint];
    try reflexivity; try exact IHd;
    cbn [Z.of_N]; rewrite <- decimal_value_acc; reflexivity.
Qed.

Lemma all_decimal_of_uint (d : Decimal.uint) :
  all_chars is_decimal_char (NilEmpty.string_of_uint d) = true.
Proof.
  induction d; cbn [NilEmpty.string_of_uint all_chars]; try reflexivity;
    rewrite IHd; reflexivity.
Qed.

Lemma decimal_digits_numeric (z : Z) : purely_numeric (decimal_digits z) = true.
Proof.
  unfold decimal_digits, NilZero.string_of_uint.
  destruct (N.to_uint (Z.to_N z)) as [|d|d|d|d|d|d|d|d|d|d]; try reflexivity;
    cbn [NilEmpty.string_of_uint purely_numeric all_chars];
    rewrite all_decimal_of_uint; reflexivity.
Qed.

Lemma decimal_digits_value (z : Z) :
  0 <= z -> decimal_value 0 (decimal_digits z) = z.
Proof.
  intros Hz. unfold decimal_digits, NilZero.string_of_uint.
  assert (E : Z.of_N (Pos.of_uint (N.to_uint (Z.to_N z))) = z).
  { change (Pos.of_uint (N.to_uint (Z.to_N z)))
      with (N.of_uint (N.to_uint (Z.to_N z))).
    rewrite DecimalN.Unsigned.of_to. apply Z2N.id. exact Hz. }
  destruct (N.to_uint (Z.to_N z)) as [|d|d|d|d|d|d|d|d|d|d];
    try (rewrite <- E; apply decimal_value_of_uint).
  rewrite <- E. reflexivity.
Qed.

Lemma py_int_format_02d (n : Z) :
  0 <= n -> py_int (format_02d n) = Ok n /\ isdigit (format_02d n) = true.
Proof.
  intros Hn.
  assert (Hnum : purely_numeric (format_02d n) = true).
  { unfold format_02d. destruct (Z.ltb_spec n 0); [lia|].
    destruct (n <? 10); [|apply decimal_digits_numeric].
    pose proof (decimal_digits_numeric n) as H1.
    destruct (decimal_digits n) eqn:E; [discriminate|].
    unfold purely_numeric in H1. cbn [append purely_numeric].
    change (all_chars is_decimal_char (String "0" (String a s)))
      with (is_decimal_char "0" && all_chars is_decimal_char (String a s)).
    rewrite H1. reflexivity. }
  split; [|apply purely_numeric_isdigit; exact Hnum].
  rewrite (purely_numeric_py_int _ Hnum). f_equal.
  unfold format_02d. destruct (Z.ltb_spec n 0); [lia|].
  destruct (n <? 10); [|apply decimal_digits_value; exact Hn].
  cbn [append decimal_value]. apply decimal_digits_value; exact Hn.
Qed.

Lemma decimal_char_bounds (c : ascii) :
  is_decimal_char c = true ->
  0 <= Z.of_nat (nat_of_ascii c) - 48 <= 9.
Proof.
  unfold is_decimal_char. cbv zeta. intros H.
  apply andb_true_iff in H. destruct H as [H1 H2].
  apply Nat.leb_le in H1. apply Nat.leb_le in H2. lia.
Qed.

Lemma decimal_value_nonneg (s : string) :
  forall acc, all_chars is_decimal_char s = true -> 0 <= acc ->
              0 <= decimal_value acc s.
Proof.
  induction s as [|c r IH]; intros acc Hs Hacc; [exact Hacc|].
  cbn [all_chars] in Hs. apply andb_true_iff in Hs. destruct Hs as [Hc Hr].
  cbn [decimal_value]. apply IH; [exact Hr|].
  pose proof (decimal_char_bounds c Hc). lia.
Qed.

Lemma py_int_ok (s : string) (v : Z) :
  py_int s = Ok v -> purely_numeric s = true /\ v = decimal_value 0 s /\ 0 <= v.
Proof.
  unfold py_int, purely_numeric. destruct s as [|c r]; [discriminate|].
  destruct (all_chars is_decimal_char (String c r)) eqn:E; [|discriminate].
  intros H. injection H as <-. split; [reflexivity|]. split; [reflexivity|].
  apply (decimal_value_nonneg (String c r) 0 E). lia.
Qed.

Lemma py_int_raises (s : string) (e : exn) :
  py_int s = Raise e -> e = ValueError.
Proof.
  unfold py_int. destruct s as [|c r]; [congruence|].
  destruct (all_chars is_decimal_char (String c r)); congruence.
Qed.


(* ------------------------------------------------------------------ *)
(** ** More on the numbering *)

Lemma existing_dirs_of_dirs (project_type : string) (workdir : directory) :
  existing_project_type_dirs project_type
    (filter (fun e => is_dir (snd e)) workdir)
  = existing_project_type_dirs project_type workdir.
Proof.
  unfold existing_project_type_dirs. f_equal.
  induction workdir as [|[n x] r IH]; [reflexivity|].
  cbn [filter fst snd]. destruct (is_dir x) eqn:E.
  - cbn [filter fst snd andb]. rewrite E. cbn [andb].
    destruct (startswith n project_type); [f_equal|]; exact IH.
  - cbn [andb]. exact IH.
Qed.

(** X5: the regular files of the working directory never count in the
    numbering, whatever their names. *)
Theorem numbering_ignores_files (project_type : string) (workdir : directory) :
  next_project_type_number project_type
    (filter (fun e => is_dir (snd e)) workdir)
  = next_project_type_number project_type workdir.
Proof.
  unfold next_project_type_number. rewrite existing_dirs_of_dirs. reflexivity.
Qed.

Lemma numbers_in (l : list string) :
  forall ns d v,
    existing_project_type_numbers l = Ok ns ->
    In d l -> isdigit (slice_from 2 d) = true ->
    py_int (slice_from 2 d) = Ok v ->
    In v ns.
Proof.
  induction l as [|n r IH]; intros ns d v Hl Hin Hd Hv; [destruct Hin|].
  cbn [existing_project_type_numbers] in Hl.
  destruct (isdigit (slice_from 2 n)) eqn:En.
  - destruct (py_int (slice_from 2 n)) as [w|e] eqn:Ew; [|discriminate].
    cbn [bind] in Hl.
    destruct (existing_project_type_numbers r) as [vs|e]; [|discriminate].
    cbn [bind] in Hl. injection Hl as <-.
    destruct Hin as [->|Hin].
    + left. congruence.
    + right. exact (IH vs d v eq_refl Hin Hd Hv).
  - destruct Hin as [->|Hin]; [congruence|].
    exact (IH ns d v Hl Hin Hd Hv).
Qed.

Lemma numbers_nonneg (l : list string) :
  forall ns, existing_project_type_numbers l = Ok ns -> Forall (Z.le 0) ns.
Proof.
  induction l as [|n r IH]; intros ns Hl.
  - injection Hl as <-. constructor.
  - cbn [existing_project_type_numbers] in Hl.
    destruct (isdigit (slice_from 2 n)); [|exact (IH ns Hl)].
    destruct (py_int (slice_from 2 n)) as [w|e] eqn:Ew; [|discriminate].
    cbn [bind] in Hl.
    destruct (existing_project_type_numbers r) as [vs|e]; [|discriminate].
    cbn [bind] in Hl. injection Hl as <-.
    constructor; [|exact (IH vs eq_refl)].
    apply py_int_ok in Ew. tauto.
Qed.

Lemma fold_left_max_ge (l : list Z) :
  forall x, x <= fold_left Z.max l x /\
            Forall (fun v => v <= fold_left Z.max l x) l.
Proof.
  induction l as [|y r IH]; intros x; cbn [fold_left].
  - split; [lia|constructor].
  - destruct (IH (Z.max x y)) as [H1 H2]. split; [lia|].
    constructor; [lia|exact H2].
Qed.

Lemma py_max_ge (ns : list Z) (m : Z) :
  py_max ns = Ok m -> Forall (fun v => v <= m) ns.
Proof.
  destruct ns as [|x r]; [discriminate|]. cbn [py_max]. intros H.
  injection H as <-. destruct (fold_left_max_ge r x) as [H1 H2].
  constructor; assumption.
Qed.

Lemma next_number_bounds (project_type : string) (workdir : directory)
    (n : Z) :
  next_project_type_number project_type workdir = Ok n ->
  1 <= n /\
  forall d v,
    In d (existing_project_type_dirs project_type workdir) ->
    isdigit (slice_from 2 d) = true ->
    py_int (slice_from 2 d) = Ok v ->
    v < n.
Proof.
  unfold next_project_type_number. intros H.
  destruct (existing_project_type_dirs project_type workdir) as [|d0 r] eqn:E.
  - injection H as <-. split; [lia|]. intros d v [].
  - destruct (existing_project_type_numbers (d0 :: r)) as [ns|e] eqn:Ens;
      [|discriminate].
    cbn [bind] in H.
    destruct (py_max ns) as [m|e] eqn:Em; [|discriminate].
    cbn [bind] in H. injection H as <-.
    pose proof (py_max_ge ns m Em) as Hge.
    pose proof (numbers_nonneg _ _ Ens) as Hpos.
    rewrite Forall_forall in Hge, Hpos. split.
    + destruct ns as [|x xs]; [discriminate|].
      assert (Hx : In x (x :: xs)) by (left; reflexivity).
      pose proof (Hge x Hx). pose proof (Hpos x Hx). lia.
    + intros d v Hin Hd Hv.
      pose proof (Hge v (numbers_in _ _ _ _ Ens Hin Hd Hv)). lia.
Qed.

(** X6: a number that the numbering yields is 1 at least, and greater than
    the number of every directory of that prefix whose slice is numeric. *)
Theorem next_number_is_above (project_type : string) (workdir : directory)
    (n : Z) :
  next_project_type_number project_type workdir = Ok n ->
  1 <= n /\
  forall d v,
    In d (existing_project_type_dirs project_type workdir) ->
    isdigit (slice_from 2 d) = true ->
    py_int (slice_from 2 d) = Ok v ->
    v < n.
Proof. exact (next_number_bounds project_type workdir n). Qed.

Lemma next_number_is_above_witness :
  1 <= 3 /\
  forall d v,
    In d (existing_project_type_dirs "td"
            [("td01", Dir []); ("td02", Dir []); ("tdx", Dir [])]) ->
    isdigit (slice_from 2 d) = true ->
    py_int (slice_from 2 d) = Ok v ->
    v < 3.
Proof.
  apply (next_number_is_above "td"
           [("td01", Dir []); ("td02", Dir []); ("tdx", Dir [])] 3).
  reflexivity.
Defined.

Lemma numbers_raise (l : list string) (d : string) :
  In d l -> isdigit (slice_from 2 d) = true ->
  purely_numeric (slice_from 2 d) = false ->
  existing_project_type_numbers l = Raise ValueError.
Proof.
  intros Hin Hd Hp.
  assert (Hraise : py_int (slice_from 2 d) = Raise ValueError).
  { destruct (py_int (slice_from 2 d)) as [v|e] eqn:E.
    - apply py_int_ok in E. destruct E as [E _]. congruence.
    - f_equal. exact (py_int_raises _ _ E). }
  induction l as [|n r IH]; [destruct Hin|].
  cbn [existing_project_type_numbers].
  destruct Hin as [->|Hin].
  - rewrite Hd, Hraise. reflexivity.
  - rewrite (IH Hin).
    destruct (isdigit (slice_from 2 n)); [|reflexivity].
    destruct (py_int (slice_from 2 n)) as [w|e] eqn:E; [reflexivity|].
    cbn [bind]. f_equal. exact (py_int_raises _ _ E).
Qed.

(** X7: a directory of the prefix whose slice passes [isdigit] without
    being decimal, as with a superscript digit, makes the numbering raise
    [ValueError], whatever the other directories. *)
Theorem digit_that_is_no_decimal_raises
    (project_type : string) (workdir : directory) (d : string) :
  In d (existing_project_type_dirs project_type workdir) ->
  isdigit (slice_from 2 d) = true ->
  purely_numeric (slice_from 2 d) = false ->
  next_project_type_number project_type workdir = Raise ValueError.
Proof.
  intros Hin Hd Hp. unfold next_project_type_number.
  pose proof (numbers_raise _ d Hin Hd Hp) as H.
  destruct (existing_project_type_dirs project_type workdir); [destruct Hin|].
  rewrite H. reflexivity.
Qed.

Lemma digit_that_is_no_decimal_raises_witness :
  next_project_type_number "td"
    [("td01", Dir []); ("td" ++ String "178" EmptyString, Dir [])]
  = Raise ValueError.
Proof.
  apply (digit_that_is_no_decimal_raises "td" _
           ("td" ++ String "178" EmptyString)).
  - simpl. right; left; reflexivity.
  - reflexivity.
  - reflexivity.
Defined.

Lemma prefix_append (p s : string) : String.prefix p (p ++ s) = true.
Proof.
  induction p as [|c r IH]; cbn [append String.prefix].
  - destruct s; reflexivity.
  - destruct (ascii_dec c c) as [_|H]; [exact IH|contradiction].
Qed.

Lemma slice_from_append (p s : string) :
  slice_from (String.length p) (p ++ s) = s.
Proof.
  induction p as [|c r IH]; [reflexivity|]. exact IH.
Qed.

Lemma put_put (n : string) (x y : node) (d : directory) :
  put n y (put n x d) = put n y d.
Proof.
  induction d as [|[m z] r IH]; cbn [put].
  - rewrite String.eqb_refl. reflexivity.
  - destruct (String.eqb n m) eqn:E; cbn [put]; rewrite E; [reflexivity|].
    rewrite IH. reflexivity.
Qed.

Lemma existing_dirs_put_new (project_type n : string) (y : list (string * node))
    (d : directory) :
  lookup n d = None ->
  startswith n project_type = true ->
  existing_project_type_dirs project_type (put n (Dir y) d)
  = (existing_project_type_dirs project_type d ++ [n])%list.
Proof.
  unfold existing_project_type_dirs, names. intros Hn Hp.
  induction d as [|[m z] r IH]; cbn [put filter map fst snd is_dir andb app].
  - rewrite Hp. reflexivity.
  - cbn [lookup] in Hn. destruct (String.eqb n m); [discriminate|].
    cbn [filter fst snd].
    destruct (is_dir z && startswith m project_type);
      cbn [map fst app]; rewrite (IH Hn); reflexivity.
Qed.

Lemma lookup_dir_in_existing (project_type n : string)
    (y : list (string * node)) (d : directory) :
  lookup n d = Some (Dir y) ->
  startswith n project_type = true ->
  In n (existing_project_type_dirs project_type d).
Proof.
  unfold existing_project_type_dirs, names. intros Hn Hp.
  induction d as [|[m z] r IH]; [discriminate|].
  cbn [lookup] in Hn. cbn [filter fst snd].
  destruct (String.eqb n m) eqn:E.
  - apply String.eqb_eq in E. subst m. injection Hn as ->.
    cbn [is_dir andb]. rewrite Hp. left; reflexivity.
  - destruct (is_dir z && startswith m project_type);
      [right|]; exact (IH Hn).
Qed.

Lemma numbers_app (l : list string) (m : string) (v : Z) :
  forall ns,
    existing_project_type_numbers l = Ok ns ->
    isdigit (slice_from 2 m) = true ->
    py_int (slice_from 2 m) = Ok v ->
    existing_project_type_numbers (l ++ [m]) = Ok (ns ++ [v])%list.
Proof.
  induction l as [|n r IH]; intros ns Hl Hd Hv.
  - injection Hl as <-. cbn [app existing_project_type_numbers].
    rewrite Hd, Hv. reflexivity.
  - cbn [app existing_project_type_numbers] in *.
    destruct (isdigit (slice_from 2 n)); [|exact (IH ns Hl Hd Hv)].
    destruct (py_int (slice_from 2 n)) as [w|e]; [|discriminate].
    cbn [bind] in *.
    destruct (existing_project_type_numbers r) as [vs|e]; [|discriminate].
    cbn [bind] in Hl. injection Hl as <-.
    rewrite (IH vs eq_refl Hd Hv). reflexivity.
Qed.

Lemma py_max_app_top (ns : list Z) (n : Z) :
  Forall (fun v => v < n) ns -> py_max (ns ++ [n]) = Ok n.
Proof.
  intros H. destruct ns as [|x r]; [reflexivity|].
  cbn [app py_max]. f_equal. rewrite fold_left_app. cbn [fold_left].
  inversion H as [|? ? Hx Hr]; subst.
  assert (Hm : fold_left Z.max r x < n).
  { clear H. revert x Hx. induction Hr as [|y r Hy Hr IH]; intros x Hx;
      cbn [fold_left]; [exact Hx|]. apply IH. lia. }
  lia.
Qed.

Lemma next_number_numbers (project_type : string) (workdir : directory)
    (n : Z) :
  next_project_type_number project_type workdir = Ok n ->
  exists ns,
    existing_project_type_numbers
      (existing_project_type_dirs project_type workdir) = Ok ns /\
    Forall (fun v => v < n) ns.
Proof.
  unfold next_project_type_number. intros H.
  destruct (existing_project_type_dirs project_type workdir) as [|d0 r].
  - exists []. split; [reflexivity|constructor].
  - destruct (existing_project_type_numbers (d0 :: r)) as [ns|e];
      [|discriminate].
    cbn [bind] in H. destruct (py_max ns) as [m|e] eqn:Em; [|discriminate].
    cbn [bind] in H. injection H as <-.
    exists ns. split; [reflexivity|].
    apply Forall_impl with (2 := py_max_ge ns m Em). intros v Hv. lia.
Qed.

(** The steps of a run of [generic_project] that returns. *)
Lemma generic_project_steps
    (st_mtime : string -> Q) (time : nat -> Q) (today project_type : string)
    (download_max_age : Z) (move_instead_of_copy : bool) (w w' : world) :
  generic_project st_mtime time today project_type download_max_age
    move_instead_of_copy w = Ok w' ->
  exists n wd home' harvested proj,
    next_project_type_number project_type (workdir w) = Ok n /\
    mkdir_exist_ok (project_dir_name project_type n) (workdir w) = Ok wd /\
    (get_latest_downloads st_mtime time (home w) download_max_age = [] /\
     home' = home w /\
     harvested = children (project_dir_name project_type n) wd
     \/
     get_latest_downloads st_mtime time (home w) download_max_age <> [] /\
     exists dl',
       harvest move_instead_of_copy
         (get_latest_downloads st_mtime time (home w) download_max_age)
         (children (download_dir (home w)) (home w))
         (children (project_dir_name project_type n) wd)
       = Ok (dl', harvested) /\
       home' = put (download_dir (home w)) (Dir dl') (home w)) /\
    _create_md_files_for_pdfs today n harvested = Ok proj /\
    w' = {| home := home';
            workdir := put (project_dir_name project_type n) (Dir proj) wd;
            cwd := [project_dir_name project_type n] |}.
Proof.
  unfold generic_project. intros H.
  destruct (next_project_type_number project_type (workdir w)) as [n|e];
    [|discriminate H].
  cbn [bind] in H.
  destruct (mkdir_exist_ok (project_dir_name project_type n) (workdir w))
    as [wd|e] eqn:Emk; [|discriminate H].
  cbn [bind] in H.
  destruct (get_latest_downloads st_mtime time (home w) download_max_age)
    as [|f r] eqn:El.
  - cbn [bind fst snd] in H.
    destruct (_create_md_files_for_pdfs today n
                (children (project_dir_name project_type n) wd))
      as [proj|e] eqn:Ec; [|discriminate H].
    cbn [bind] in H. injection H as <-.
    exists n, wd, (home w),
      (children (project_dir_name project_type n) wd), proj.
    split; [reflexivity|]. split; [exact Emk|].
    split; [left; repeat split; reflexivity|].
    split; [exact Ec|reflexivity].
  - destruct (harvest move_instead_of_copy (f :: r)
                (children (download_dir (home w)) (home w))
                (children (project_dir_name project_type n) wd))
      as [[dl' harvested]|e] eqn:Eh; [|discriminate H].
    cbn [bind fst snd] in H.
    destruct (_create_md_files_for_pdfs today n harvested)
      as [proj|e] eqn:Ec; [|discriminate H].
    cbn [bind] in H. injection H as <-.
    exists n, wd, (put (download_dir (home w)) (Dir dl') (home w)),
      harvested, proj.
    split; [reflexivity|]. split; [exact Emk|].
    split; [right; split; [discriminate|
                           exists dl'; split; [exact Eh|reflexivity]]|].
    split; [exact Ec|reflexivity].
Qed.

(** X8: prefixes of two characters that are one component of a path (no
    [/]): a run that returns has created a directory that the working
    directory did not have, and the numbering of the working directory it
    leaves yields the next number: successive runs number their directories
    [n], [n + 1], and so on. *)
Theorem successive_runs_number_consecutively
    (st_mtime : string -> Q) (time : nat -> Q) (today project_type : string)
    (download_max_age : Z) (move_instead_of_copy : bool) (w w' : world) :
  String.length project_type = 2%nat ->
  is_component project_type = true ->
  generic_project st_mtime time today project_type download_max_age
    move_instead_of_copy w = Ok w' ->
  exists n,
    next_project_type_number project_type (workdir w) = Ok n /\
    lookup (project_dir_name project_type n) (workdir w) = None /\
    (exists proj,
       lookup (project_dir_name project_type n) (workdir w')
       = Some (Dir proj)) /\
    next_project_type_number project_type (workdir w') = Ok (n + 1).
Proof.
  intros Hlen _ Hrun.
  destruct (generic_project_steps _ _ _ _ _ _ _ _ Hrun)
    as [n [wd [home' [harvested [proj [Hn [Hmk [_ [_ Hw']]]]]]]]].
  assert (Hwd : workdir w'
                = put (project_dir_name project_type n) (Dir proj) wd)
    by (subst w'; reflexivity).
  exists n. split; [exact Hn|].
  destruct (next_number_bounds _ _ _ Hn) as [Hn1 Habove].
  assert (Hn0 : 0 <= n) by lia.
  destruct (py_int_format_02d n Hn0) as [Hint Hdig].
  assert (Hslice : slice_from 2 (project_dir_name project_type n)
                   = format_02d n).
  { unfold project_dir_name. rewrite <- Hlen. apply slice_from_append. }
  assert (Hpre : startswith (project_dir_name project_type n) project_type
                 = true) by apply prefix_append.
  assert (Hfresh : lookup (project_dir_name project_type n) (workdir w)
                   = None).
  { unfold mkdir_exist_ok in Hmk.
    destruct (lookup (project_dir_name project_type n) (workdir w))
      as [[c|ch]|] eqn:E; [discriminate|exfalso|reflexivity].
    pose proof (lookup_dir_in_existing _ _ _ _ E Hpre) as Hin.
    rewrite <- Hslice in Hint, Hdig.
    pose proof (Habove _ _ Hin Hdig Hint). lia. }
  split; [exact Hfresh|]. split.
  { exists proj. rewrite Hwd. apply lookup_put_same. }
  unfold mkdir_exist_ok in Hmk. rewrite Hfresh in Hmk. injection Hmk as <-.
  rewrite Hwd, put_put.
  destruct (next_number_numbers _ _ _ Hn) as [ns [Hns Hlt]].
  unfold next_project_type_number.
  rewrite (existing_dirs_put_new _ _ _ _ Hfresh Hpre).
  rewrite <- Hslice in Hint, Hdig.
  pose proof (numbers_app _ _ _ _ Hns Hdig Hint) as Happ.
  destruct (existing_project_type_dirs project_type (workdir w) ++
            [project_dir_name project_type n])%list as [|d0 r] eqn:E.
  { destruct (existing_project_type_dirs project_type (workdir w));
      discriminate E. }
  rewrite Happ. cbn [bind]. rewrite (py_max_app_top _ _ Hlt). reflexivity.
Qed.

(* ------------------------------------------------------------------ *)
(** ** More on the latest downloads *)


(** X10: the sort is stable: the selected entries of one modification time
    come out in the order in which the comprehension kept them, that of the
    enumeration of the folder. *)
Theorem equal_mtimes_keep_their_order
    (st_mtime : string -> Q) (time : nat -> Q) (home : directory)
    (age : Z) (k : Q) :
  filter (fun g => Qeq_bool (st_mtime g) k)
    (get_latest_downloads st_mtime time home age)
  = filter (fun g => Qeq_bool (st_mtime g) k)
      (filtered_files st_mtime time 0 age
         (names (children (download_dir home) home))).
Proof.
  unfold get_latest_downloads. apply sorted_reverse_stable.
Qed.

Lemma telechargements_not_downloads : telechargements <> "Downloads".
Proof. discriminate. Qed.

(** X11: [Téléchargements] has precedence by its mere existence: when the
    home directory has an entry of that name, nothing that [Downloads]
    holds is a candidate, and when that entry is a regular file there is
    no candidate at all. *)
Theorem telechargements_shadows_downloads
    (st_mtime : string -> Q) (time : nat -> Q) (home : directory) (age : Z) :
  exists_ telechargements home = true ->
  (forall x,
     get_latest_downloads st_mtime time (put "Downloads" x home) age
     = get_latest_downloads st_mtime time home age) /\
  (forall c,
     lookup telechargements home = Some (File c) ->
     get_latest_downloads st_mtime time home age = []).
Proof.
  intros Hex. split.
  - intros x.
    pose proof (lookup_put_other _ _ x home telechargements_not_downloads)
      as Hl.
    assert (Hd : download_dir (put "Downloads" x home) = telechargements).
    { unfold download_dir, exists_ in *. rewrite Hl.
      destruct (lookup telechargements home); [reflexivity|discriminate]. }
    assert (Hd' : download_dir home = telechargements).
    { unfold download_dir. rewrite Hex. reflexivity. }
    unfold get_latest_downloads. rewrite Hd, Hd'.
    unfold children. rewrite Hl. reflexivity.
  - intros c Hc. unfold get_latest_downloads, download_dir, children.
    rewrite Hex, Hc. reflexivity.
Qed.

Lemma telechargements_shadows_downloads_witness :
  (forall x,
     get_latest_downloads sample_mtime sample_time
       (put "Downloads" x sample_home_fr) 5
     = get_latest_downloads sample_mtime sample_time sample_home_fr 5) /\
  (forall c,
     lookup telechargements sample_home_fr = Some (File c) ->
     get_latest_downloads sample_mtime sample_time sample_home_fr 5 = []).
Proof.
  apply (telechargements_shadows_downloads sample_mtime sample_time
           sample_home_fr 5).
  reflexivity.
Defined.

Lemma successive_runs_number_consecutively_witness :
  exists n,
    next_project_type_number "td" (workdir sample_world) = Ok n /\
    lookup (project_dir_name "td" n) (workdir sample_world) = None /\
    (exists proj,
       lookup (project_dir_name "td" n) (workdir sample_world_after)
       = Some (Dir proj)) /\
    next_project_type_number "td" (workdir sample_world_after) = Ok (n + 1).
Proof.
  apply (successive_runs_number_consecutively sample_mtime sample_time
           "2026-11-03" "td" 5 true sample_world sample_world_after).
  - reflexivity.
  - reflexivity.
  - reflexivity.
Defined.

(* ------------------------------------------------------------------ *)
(** ** More on the harvest *)










(* ------------------------------------------------------------------ *)
(** ** More on [generic_project] *)


(** X16: [mkdir(exist_ok=True)] accepts a directory only: when a regular
    file, which the numbering does not see, has the name of the next project
    directory, the run raises [FileExistsError] and returns no world. *)
Theorem file_with_the_next_name_raises
    (st_mtime : string -> Q) (time : nat -> Q) (today project_type : string)
    (download_max_age : Z) (move_instead_of_copy : bool) (w : world)
    (n : Z) (c : string) :
  next_project_type_number project_type (workdir w) = Ok n ->
  lookup (project_dir_name project_type n) (workdir w) = Some (File c) ->
  generic_project st_mtime time today project_type download_max_age
    move_instead_of_copy w = Raise FileExistsError.
Proof.
  intros Hn Hfile. unfold generic_project. rewrite Hn. cbn [bind].
  unfold mkdir_exist_ok. rewrite Hfile. reflexivity.
Qed.

Lemma file_with_the_next_name_raises_witness :
  generic_project sample_mtime sample_time "2026-11-03" "td" 5 true
    {| home := sample_home;
       workdir := [("td01", Dir []); ("td02", File "notes of the second td")];
       cwd := [] |}
  = Raise FileExistsError.
Proof.
  apply (file_with_the_next_name_raises sample_mtime sample_time "2026-11-03"
           "td" 5 true _ 2 "notes of the second td").
  - reflexivity.
  - reflexivity.
Defined.

(* ------------------------------------------------------------------ *)
(** ** Paths *)

Lemma rfind_dot_app (a s : string) :
  rfind_dot (a ++ s) =
  match rfind_dot s with
  | Some i => Some (String.length a + i)%nat
  | None => rfind_dot a
  end.
Proof.
  induction a as [|c r IH]; cbn [append rfind_dot String.length].
  - destruct (rfind_dot s); reflexivity.
  - rewrite IH. destruct (rfind_dot s); reflexivity.
Qed.

Lemma slice_to_append (a s : string) : slice_to (String.length a) (a ++ s) = a.
Proof.
  induction a as [|c r IH]; cbn [append String.length slice_to].
  - reflexivity.
  - rewrite IH. reflexivity.
Qed.

Lemma slice_to_all (s : string) : slice_to (String.length s) s = s.
Proof.
  induction s as [|c r IH]; cbn [String.length slice_to]; [reflexivity|].
  rewrite IH. reflexivity.
Qed.

Lemma suffix_extension (a e : string) :
  e <> "" -> rfind_dot e = None ->
  suffix (a ++ "." ++ e) = if (0 <? String.length a)%nat then "." ++ e else "".
Proof.
  intros He Hdot. unfold suffix. rewrite rfind_dot_app.
  cbn [append rfind_dot]. rewrite Hdot.
  change (Ascii.eqb "." ".") with true. cbv iota.
  rewrite Nat.add_0_r, length_append.
  change (String.length (String "." e)) with (S (String.length e)).
  destruct (0 <? String.length a)%nat eqn:Ea; [|reflexivity].
  assert (Hlen : (String.length a <? String.length a + S (String.length e) - 1)%nat
                 = true).
  { apply Nat.ltb_lt. destruct e; [contradiction|]. cbn [String.length]. lia. }
  rewrite Hlen. cbn [andb]. apply slice_from_append.
Qed.


Lemma stem_extension (a e : string) :
  a <> "" -> e <> "" -> rfind_dot e = None -> stem (a ++ "." ++ e) = a.
Proof.
  intros Ha He Hdot. unfold stem. rewrite (suffix_extension a e He Hdot).
  destruct a as [|c r]; [contradiction|].
  change (0 <? String.length (String c r))%nat with true. cbv iota.
  rewrite length_append.
  replace (String.length (String c r) + String.length ("." ++ e)
           - String.length ("." ++ e))%nat
    with (String.length (String c r)) by lia.
  apply slice_to_append.
Qed.

Lemma substring_all (s : string) : substring 0 (String.length s) s = s.
Proof.
  induction s as [|c r IH]; [reflexivity|].
  cbn [String.length substring]. rewrite IH. reflexivity.
Qed.

Lemma slice_to_substring (s : string) :
  forall n, (n <= String.length s)%nat ->
            s = slice_to n s ++ substring n (String.length s - n) s.
Proof.
  induction s as [|c r IH]; intros n Hn.
  - destruct n; reflexivity.
  - destruct n as [|n].
    + cbn [slice_to append]. rewrite Nat.sub_0_r. symmetry.
      apply substring_all.
    + cbn [String.length] in *. cbn [slice_to append substring Nat.sub].
      f_equal. apply IH. lia.
Qed.

Lemma endswith_split (s t : string) :
  endswith s t = true -> exists a, s = a ++ t.
Proof.
  unfold endswith. intros H. apply andb_true_iff in H. destruct H as [Hl He].
  apply Nat.leb_le in Hl. apply String.eqb_eq in He.
  exists (slice_to (String.length s - String.length t) s).
  assert (Hle : (String.length s - String.length t <= String.length s)%nat)
    by lia.
  pose proof (slice_to_substring s _ Hle) as H.
  replace (String.length s - (String.length s - String.length t))%nat
    with (String.length t) in H by lia.
  rewrite He in H. exact H.
Qed.

(* ------------------------------------------------------------------ *)
(** ** More on the Markdown stubs *)

Lemma first_pdf_for_some (m p : string) (pdf_files : list string) :
  first_pdf_for m pdf_files = Some p -> In p pdf_files /\ m = stub_name p.
Proof.
  induction pdf_files as [|q r IH]; [discriminate|]. cbn [first_pdf_for].
  destruct (String.eqb m (stub_name q)) eqn:E.
  - intros H. injection H as <-. apply String.eqb_eq in E.
    split; [left; reflexivity|exact E].
  - intros H. destruct (IH H) as [H1 H2]. split; [right; exact H1|exact H2].
Qed.

(** X18: with a PDF in the destination, a generation that returns has only
    added: every entry stays as it is, every PDF has its stub afterwards, an
    entry that is new is the stub of a PDF with the header of that PDF, and
    the PDF files are those of before. *)
Theorem stubs_with_pdfs_only_add (today : string) (fallback : Z)
    (d d' : directory) :
  glob_ending ".pdf" d <> [] ->
  _create_md_files_for_pdfs today fallback d = Ok d' ->
  (forall m x, lookup m d = Some x -> lookup m d' = Some x) /\
  (forall p, In p (glob_ending ".pdf" d) ->
             exists x, lookup (stub_name p) d' = Some x) /\
  (forall m x,
     lookup m d = None -> lookup m d' = Some x ->
     exists p, In p (glob_ending ".pdf" d) /\ m = stub_name p /\
               x = File (markdown_header today (stem p))) /\
  glob_ending ".pdf" d' = glob_ending ".pdf" d.
Proof.
  intros Hpdf Hcreate.
  destruct (stubs_for_pdfs_spec today (glob_ending ".pdf" d) d)
    as [d0 [Hrun Hd']].
  assert (E : _create_md_files_for_pdfs today fallback d = Ok d0).
  { unfold _create_md_files_for_pdfs.
    destruct (glob_ending ".pdf" d); [contradiction|exact Hrun]. }
  rewrite E in Hcreate. injection Hcreate as <-.
  split; [|split; [|split]].
  - intros m x Hm. rewrite Hd', Hm. reflexivity.
  - intros p Hp. rewrite Hd'.
    destruct (lookup (stub_name p) d) as [x|]; [exists x; reflexivity|].
    pose proof (first_pdf_for_in p _ Hp) as Hf.
    destruct (first_pdf_for (stub_name p) (glob_ending ".pdf" d)) as [q|];
      [eexists; reflexivity|contradiction].
  - intros m x Hm Hx. rewrite Hd', Hm in Hx.
    destruct (first_pdf_for m (glob_ending ".pdf" d)) as [p|] eqn:E';
      [|discriminate].
    injection Hx as <-. destruct (first_pdf_for_some _ _ _ E') as [H1 H2].
    exists p. split; [exact H1|]. split; [exact H2|reflexivity].
  - exact (stubs_for_pdfs_glob _ _ _ _ Hrun).
Qed.

Lemma stubs_with_pdfs_only_add_witness :
  lookup "a_rendu_Colin_PROKOPOWICZ.md"
    [("a.pdf", File "%PDF-a"); ("a_rendu_Colin_PROKOPOWICZ.md", File "mine");
     ("b.pdf", File "%PDF-b");
     ("b_rendu_Colin_PROKOPOWICZ.md", File (markdown_header "2026-11-03" "b"))]
  = Some (File "mine") /\
  glob_ending ".pdf"
    [("a.pdf", File "%PDF-a"); ("a_rendu_Colin_PROKOPOWICZ.md", File "mine");
     ("b.pdf", File "%PDF-b");
     ("b_rendu_Colin_PROKOPOWICZ.md", File (markdown_header "2026-11-03" "b"))]
  = ["a.pdf"; "b.pdf"].
Proof.
  destruct (stubs_with_pdfs_only_add "2026-11-03" 1
              [("a.pdf", File "%PDF-a");
               ("a_rendu_Colin_PROKOPOWICZ.md", File "mine");
               ("b.pdf", File "%PDF-b")]
              [("a.pdf", File "%PDF-a");
               ("a_rendu_Colin_PROKOPOWICZ.md", File "mine");
               ("b.pdf", File "%PDF-b");
               ("b_rendu_Colin_PROKOPOWICZ.md",
                File (markdown_header "2026-11-03" "b"))])
    as [H2 [_ [_ H5]]].
  - simpl. discriminate.
  - reflexivity.
  - split; [apply H2; reflexivity|exact H5].
Defined.

Lemma in_glob_ending (m tail : string) (d : directory) :
  lookup m d <> None -> endswith m tail = true -> In m (glob_ending tail d).
Proof.
  intros Hm He. unfold glob_ending. apply filter_In. split; [|exact He].
  destruct (in_dec string_dec m (names d)) as [H|H]; [exact H|].
  apply lookup_none_not_in in H. contradiction.
Qed.

Lemma stub_name_rendu (p : string) :
  endswith (stub_name p) (rendu_tail ++ ".md") = true.
Proof.
  unfold stub_name. rewrite endswith_append; [reflexivity|]. simpl. lia.
Qed.

Lemma fallback_name_rendu (n : Z) :
  endswith (fallback_title n ++ ".md") (rendu_tail ++ ".md") = true.
Proof.
  unfold fallback_title. rewrite !append_assoc.
  change ("project" ++ format_02d n ++ rendu_tail ++ ".md")
    with ("project" ++ (format_02d n ++ rendu_tail ++ ".md")).
  rewrite <- (append_assoc "project").
  rewrite endswith_append; [reflexivity|]. simpl. lia.
Qed.

Lemma create_leaves_a_stub (today : string) (fallback : Z) (d d' : directory) :
  _create_md_files_for_pdfs today fallback d = Ok d' ->
  glob_ending (rendu_tail ++ ".md") d' <> [] /\
  forall p, In p (glob_ending ".pdf" d) ->
            In (stub_name p) (glob_ending (rendu_tail ++ ".md") d').
Proof.
  intros Hrun.
  assert (Hall : forall p, In p (glob_ending ".pdf" d) ->
                   In (stub_name p) (glob_ending (rendu_tail ++ ".md") d')).
  { intros p Hp.
    assert (Hne : glob_ending ".pdf" d <> []) by (intros E; rewrite E in Hp;
                                                  destruct Hp).
    destruct (stubs_for_pdfs_spec today (glob_ending ".pdf" d) d)
      as [d2 [Hrun2 Hd2]].
    assert (d2 = d'); [|subst d2].
    { unfold _create_md_files_for_pdfs in Hrun.
      destruct (glob_ending ".pdf" d); [contradiction|congruence]. }
    apply in_glob_ending; [|apply stub_name_rendu].
    rewrite Hd2. destruct (lookup (stub_name p) d); [discriminate|].
    pose proof (first_pdf_for_in p _ Hp) as Hf.
    destruct (first_pdf_for (stub_name p) (glob_ending ".pdf" d));
      [discriminate|contradiction]. }
  split; [|exact Hall].
  destruct (glob_ending ".pdf" d) as [|p r] eqn:E.
  - unfold _create_md_files_for_pdfs in Hrun. rewrite E in Hrun.
    cbv zeta in Hrun. unfold write_text in Hrun.
    assert (Hin : In (fallback_title fallback ++ ".md")
                    (glob_ending (rendu_tail ++ ".md") d')).
    { apply in_glob_ending; [|apply fallback_name_rendu].
      destruct (lookup (fallback_title fallback ++ ".md") d) as [[c|ch]|];
        try discriminate; injection Hrun as <-;
        rewrite lookup_put_same; discriminate. }
    intros Hnil. rewrite Hnil in Hin. destruct Hin.
  - intros Hnil. specialize (Hall p (or_introl eq_refl)).
    rewrite Hnil in Hall. destruct Hall.
Qed.

(** X19: what the generation writes is what [rendu] converts: after a
    generation that returns, the glob of [rendu] on the destination finds
    the stub of every PDF, and at least one file in any case. *)
Theorem stubs_are_found_by_rendu (today : string) (fallback : Z)
    (d d' : directory) :
  _create_md_files_for_pdfs today fallback d = Ok d' ->
  glob_ending (rendu_tail ++ ".md") d' <> [] /\
  forall p, In p (glob_ending ".pdf" d) ->
            In (stub_name p) (glob_ending (rendu_tail ++ ".md") d').
Proof. exact (create_leaves_a_stub today fallback d d'). Qed.

Lemma stubs_are_found_by_rendu_witness :
  glob_ending (rendu_tail ++ ".md")
    [("a.pdf", File "%PDF-a");
     ("a_rendu_Colin_PROKOPOWICZ.md", File (markdown_header "2026-11-03" "a"))]
  <> [] /\
  forall p, In p (glob_ending ".pdf" [("a.pdf", File "%PDF-a")]) ->
            In (stub_name p)
              (glob_ending (rendu_tail ++ ".md")
                 [("a.pdf", File "%PDF-a");
                  ("a_rendu_Colin_PROKOPOWICZ.md",
                   File (markdown_header "2026-11-03" "a"))]).
Proof.
  apply (stubs_are_found_by_rendu "2026-11-03" 1 [("a.pdf", File "%PDF-a")]).
  reflexivity.
Defined.

(** X20: a run of [generic_project] that returns leaves the process in a
    new project directory that holds at least one file for [rendu]. *)
Theorem created_project_has_a_stub
    (st_mtime : string -> Q) (time : nat -> Q) (today project_type : string)
    (download_max_age : Z) (move_instead_of_copy : bool) (w w' : world) :
  generic_project st_mtime time today project_type download_max_age
    move_instead_of_copy w = Ok w' ->
  exists name proj,
    cwd w' = [name] /\
    lookup name (workdir w') = Some (Dir proj) /\
    glob_ending (rendu_tail ++ ".md") proj <> [].
Proof.
  intros Hrun.
  destruct (generic_project_steps _ _ _ _ _ _ _ _ Hrun)
    as [n [wd [home' [harvested [proj [_ [_ [_ [Hc Hw']]]]]]]]].
  subst w'. exists (project_dir_name project_type n), proj. cbn [cwd workdir].
  split; [reflexivity|]. split; [apply lookup_put_same|].
  exact (proj1 (create_leaves_a_stub _ _ _ _ Hc)).
Qed.

Lemma created_project_has_a_stub_witness :
  exists name proj,
    cwd sample_world_after = [name] /\
    lookup name (workdir sample_world_after) = Some (Dir proj) /\
    glob_ending (rendu_tail ++ ".md") proj <> [].
Proof.
  apply (created_project_has_a_stub sample_mtime sample_time "2026-11-03"
           "td" 5 true sample_world sample_world_after).
  reflexivity.
Defined.

(** X21: the PDF that [rendu] unlinks and writes for the stub of a PDF file
    [p] is named after the stem of [p] followed by
    [_rendu_Colin_PROKOPOWICZ.pdf]; it is another file than [p]. *)
Theorem stub_pdf_is_not_the_source_pdf (p : string) :
  endswith p ".pdf" = true ->
  with_suffix (stub_name p) ".pdf" = stem p ++ rendu_tail ++ ".pdf" /\
  with_suffix (stub_name p) ".pdf" <> p.
Proof.
  intros Hp.
  assert (Hw : with_suffix (stub_name p) ".pdf"
               = stem p ++ rendu_tail ++ ".pdf").
  { unfold with_suffix, stub_name.
    change (stem p ++ rendu_tail ++ ".md")
      with (stem p ++ (rendu_tail ++ "." ++ "md")).
    rewrite <- append_assoc, stem_extension, append_assoc;
      [reflexivity| |discriminate|reflexivity].
    intros E. apply (f_equal String.length) in E.
    rewrite length_append in E. simpl in E. lia. }
  split; [exact Hw|]. rewrite Hw. intros E.
  apply (f_equal String.length) in E. rewrite length_append in E.
  destruct (endswith_split _ _ Hp) as [a Ha].
  assert (Hlen : (String.length p <= String.length (stem p) + 4)%nat).
  { destruct a as [|c r].
    - subst p. simpl. lia.
    - rewrite Ha at 2. change ".pdf" with ("." ++ "pdf").
      rewrite stem_extension; [|discriminate|discriminate|reflexivity].
      rewrite Ha, length_append. simpl. lia. }
  simpl in E. lia.
Qed.

Lemma stub_pdf_is_not_the_source_pdf_witness :
  with_suffix (stub_name "sujet.pdf") ".pdf"
  = stem "sujet.pdf" ++ rendu_tail ++ ".pdf" /\
  with_suffix (stub_name "sujet.pdf") ".pdf" <> "sujet.pdf".
Proof.
  apply (stub_pdf_is_not_the_source_pdf "sujet.pdf"). reflexivity.
Defined.

(* ------------------------------------------------------------------ *)
(** ** More on [rendu] *)

Section RenduFacts.

Variable WORKDIR : string.
Variable TD_LATEX_HEADER : string.
Variable subprocess_run : list string -> directory -> directory * result Z.

Lemma rendu_loop_keeps (md_files : list string) (d : directory) :
  (forall md, In md md_files -> exists_ (with_suffix md ".pdf") d = true) ->
  rendu_loop WORKDIR TD_LATEX_HEADER subprocess_run false md_files d
  = (d, Ok tt).
Proof.
  induction md_files as [|md r IH]; intros H; [reflexivity|].
  cbn [rendu_loop]. rewrite (H md (or_introl eq_refl)).
  apply IH. intros md' Hmd'. apply H. right; exact Hmd'.
Qed.

Lemma rendu_loop_returns (md_files : list string) :
  (forall args d, exists d' returncode,
      subprocess_run args d = (d', Ok returncode)) ->
  forall d,
    snd (rendu_loop WORKDIR TD_LATEX_HEADER subprocess_run false md_files d)
    = Ok tt.
Proof.
  intros Hrun. induction md_files as [|md r IH]; intros d; [reflexivity|].
  cbn [rendu_loop].
  destruct (exists_ (with_suffix md ".pdf") d); [apply IH|].
  unfold convert, subprocess_run_check.
  destruct (Hrun (pandoc_args WORKDIR TD_LATEX_HEADER
                    (with_suffix md ".pdf") md) d) as [d' [rc E]].
  rewrite E. destruct (rc =? 0); apply IH.
Qed.

Lemma rendu_loop_unlinks (md_files : list string) :
  (forall args d, exists returncode,
      subprocess_run args d = (d, Ok returncode)) ->
  forall d,
    (forall md ch, In md md_files ->
                   lookup (with_suffix md ".pdf") d <> Some (Dir ch)) ->
    exists d',
      rendu_loop WORKDIR TD_LATEX_HEADER subprocess_run true md_files d
      = (d', Ok tt) /\
      forall m,
        (In m (map (fun md => with_suffix md ".pdf") md_files) ->
         lookup m d' = None) /\
        (~ In m (map (fun md => with_suffix md ".pdf") md_files) ->
         lookup m d' = lookup m d).
Proof.
  intros Hrun. induction md_files as [|md r IH]; intros d Hdir.
  - exists d. split; [reflexivity|]. intros m. split; [intros []|reflexivity].
  - assert (Hstep : exists d1,
              rendu_loop WORKDIR TD_LATEX_HEADER subprocess_run true
                (md :: r) d
              = rendu_loop WORKDIR TD_LATEX_HEADER subprocess_run true r d1 /\
              lookup (with_suffix md ".pdf") d1 = None /\
              (forall m, m <> with_suffix md ".pdf" ->
                         lookup m d1 = lookup m d)).
    { cbn [rendu_loop]. unfold exists_, unlink.
      destruct (lookup (with_suffix md ".pdf") d) as [[c|ch]|] eqn:E.
      - exists (delete (with_suffix md ".pdf") d).
        unfold convert, subprocess_run_check.
        destruct (Hrun (pandoc_args WORKDIR TD_LATEX_HEADER
                          (with_suffix md ".pdf") md)
                    (delete (with_suffix md ".pdf") d)) as [rc Erc].
        rewrite Erc.
        split; [destruct (rc =? 0); reflexivity|].
        split; [apply lookup_delete_same|].
        intros m Hm. apply lookup_delete_other. exact Hm.
      - exfalso. exact (Hdir md ch (or_introl eq_refl) E).
      - exists d. unfold convert, subprocess_run_check.
        destruct (Hrun (pandoc_args WORKDIR TD_LATEX_HEADER
                          (with_suffix md ".pdf") md) d) as [rc Erc].
        rewrite Erc.
        split; [destruct (rc =? 0); reflexivity|].
        split; [exact E|]. intros m _. reflexivity. }
    destruct Hstep as [d1 [Hloop [Hgone Hother]]].
    destruct (IH d1) as [d' [Hrest Hd']].
    { intros md' ch Hmd' E.
      destruct (String.eqb (with_suffix md' ".pdf") (with_suffix md ".pdf"))
        eqn:Eq.
      - apply String.eqb_eq in Eq. rewrite Eq in E. congruence.
      - apply String.eqb_neq in Eq. rewrite (Hother _ Eq) in E.
        exact (Hdir md' ch (or_intror Hmd') E). }
    exists d'. split; [rewrite Hloop; exact Hrest|].
    intros m. destruct (Hd' m) as [Hin Hout]. cbn [map]. split.
    + intros [Hm|Hm].
      * subst m.
        destruct (in_dec string_dec (with_suffix md ".pdf")
                    (map (fun md0 => with_suffix md0 ".pdf") r)) as [Hi|Hi].
        -- exact (Hin Hi).
        -- rewrite (Hout Hi). exact Hgone.
      * exact (Hin Hm).
    + intros Hm.
      assert (Hm1 : m <> with_suffix md ".pdf")
        by (intros ->; apply Hm; left; reflexivity).
      assert (Hm2 : ~ In m (map (fun md0 => with_suffix md0 ".pdf") r))
        by (intros Hi; apply Hm; right; exact Hi).
      rewrite (Hout Hm2). apply Hother. exact Hm1.
Qed.

End RenduFacts.

(** X22: without [overwrite], when every Markdown file of the glob has its
    PDF, [rendu] leaves the directory as it is and returns, whatever the
    converter is: it is not run. *)
Theorem rendu_without_overwrite_keeps_the_pdfs
    (WORKDIR TD_LATEX_HEADER : string)
    (subprocess_run : list string -> directory -> directory * result Z)
    (d : directory) :
  (forall md, In md (glob_ending (rendu_tail ++ ".md") d) ->
              exists_ (with_suffix md ".pdf") d = true) ->
  rendu WORKDIR TD_LATEX_HEADER subprocess_run false d = (d, Ok tt).
Proof.
  intros H. unfold rendu.
  pose proof (rendu_loop_keeps WORKDIR TD_LATEX_HEADER subprocess_run _ d H)
    as Hloop.
  destruct (glob_ending (rendu_tail ++ ".md") d); [reflexivity|exact Hloop].
Qed.

(** X23: without [overwrite], a converter that is launched every time,
    whatever codes it returns and whatever it does to the directory, never
    makes [rendu] raise: a failed conversion is not an error of the
    command. *)
Theorem rendu_survives_failed_conversions
    (WORKDIR TD_LATEX_HEADER : string)
    (subprocess_run : list string -> directory -> directory * result Z)
    (d : directory) :
  (forall args d0, exists d' returncode,
      subprocess_run args d0 = (d', Ok returncode)) ->
  snd (rendu WORKDIR TD_LATEX_HEADER subprocess_run false d) = Ok tt.
Proof.
  intros H. unfold rendu.
  pose proof (rendu_loop_returns WORKDIR TD_LATEX_HEADER subprocess_run
                (glob_ending (rendu_tail ++ ".md") d) H d) as Hloop.
  destruct (glob_ending (rendu_tail ++ ".md") d); [reflexivity|exact Hloop].
Qed.

(** X24: with [overwrite] and a converter that writes nothing, as when
    every conversion fails, [rendu] returns without exception, every
    companion PDF of a Markdown file of the glob is gone and every other
    entry is as before, provided no companion name is that of a
    directory. *)
Theorem rendu_with_overwrite_and_no_output
    (WORKDIR TD_LATEX_HEADER : string)
    (subprocess_run : list string -> directory -> directory * result Z)
    (d : directory) :
  (forall args d0, exists returncode,
      subprocess_run args d0 = (d0, Ok returncode)) ->
  (forall md ch, In md (glob_ending (rendu_tail ++ ".md") d) ->
                 lookup (with_suffix md ".pdf") d <> Some (Dir ch)) ->
  exists d',
    rendu WORKDIR TD_LATEX_HEADER subprocess_run true d = (d', Ok tt) /\
    forall m,
      (In m (map (fun md => with_suffix md ".pdf")
               (glob_ending (rendu_tail ++ ".md") d)) ->
       lookup m d' = None) /\
      (~ In m (map (fun md => with_suffix md ".pdf")
                 (glob_ending (rendu_tail ++ ".md") d)) ->
       lookup m d' = lookup m d).
Proof.
  intros Hrun Hdir. unfold rendu.
  destruct (rendu_loop_unlinks WORKDIR TD_LATEX_HEADER subprocess_run
              (glob_ending (rendu_tail ++ ".md") d) Hrun d Hdir)
    as [d' [Hloop Hd']].
  destruct (glob_ending (rendu_tail ++ ".md") d) as [|md r] eqn:E.
  - exists d. split; [reflexivity|]. intros m.
    split; [intros []|reflexivity].
  - exists d'. split; [exact Hloop|exact Hd'].
Qed.

Lemma rendu_without_overwrite_keeps_the_pdfs_witness :
  rendu "/home/colin/c1" "td_header.tex" failing_pandoc false sample_rendered
  = (sample_rendered, Ok tt).
Proof.
  apply (rendu_without_overwrite_keeps_the_pdfs "/home/colin/c1"
           "td_header.tex" failing_pandoc sample_rendered).
  simpl. intros md [<-|[]]. reflexivity.
Defined.

Lemma rendu_survives_failed_conversions_witness :
  snd (rendu "/home/colin/c1" "td_header.tex" failing_pandoc false
         sample_workdir) = Ok tt.
Proof.
  apply (rendu_survives_failed_conversions "/home/colin/c1" "td_header.tex"
           failing_pandoc sample_workdir).
  intros args d0. exists d0, 43. reflexivity.
Defined.

Lemma rendu_with_overwrite_and_no_output_witness :
  exists d',
    rendu "/home/colin/c1" "td_header.tex" failing_pandoc true sample_workdir
    = (d', Ok tt) /\
    forall m,
      (In m (map (fun md => with_suffix md ".pdf")
               (glob_ending (rendu_tail ++ ".md") sample_workdir)) ->
       lookup m d' = None) /\
      (~ In m (map (fun md => with_suffix md ".pdf")
                 (glob_ending (rendu_tail ++ ".md") sample_workdir)) ->
       lookup m d' = lookup m sample_workdir).
Proof.
  apply (rendu_with_overwrite_and_no_output "/home/colin/c1" "td_header.tex"
           failing_pandoc sample_workdir).
  - intros args d0. exists 43. reflexivity.
  - simpl. intros md ch [<-|[<-|[]]]; discriminate.
Defined.

(* ------------------------------------------------------------------ *)
(** ** [td] and [tp] *)





